(** * Dynamic Studio: the component-state synchronisation core

    A shallow embedding of [src/ui/studio-dynamic.py] (class
    [DynamicStudio]) and the properties of its registry, dispatcher,
    broadcast hub and lifecycle.

    The Python object is a record; every method is a computation in a
    small state-and-exception monad, so that what a method has already
    mutated survives an exception it raises afterwards, exactly as in
    Python.  Values that arrive on the wire are arbitrary JSON, hence the
    model carries Python's dynamic values rather than typed records.

    The handlers are first written as they run when no other task of
    the event loop is scheduled during their awaits; what other tasks do
    is then placed between methods (and between the three parts
    [handle_websocket] is cut into).  The two loops that await while
    they iterate over the live client list, in [broadcast_message] and
    in [stop], are written a second time ([broadcast_message_among],
    [stop_among]) with the list read anew at every turn and the other
    tasks' doings placed inside their awaits; with nothing scheduled
    they are the first versions.  The clock, the transports and the
    outcome of the bind are inputs.  A [str] is a [string], one
    character for each of its code points. *)

From Stdlib Require Import ZArith List String Ascii Bool Lia.
From Stdlib Require Import Floats.SpecFloat.
Import ListNotations.

Set Implicit Arguments.
#[local] Set Warnings "-register-all".
#[local] Open Scope string_scope.
#[local] Open Scope list_scope.

(* ================================================================= *)
(** ** Python values *)

(** Hashable scalars up to Python's [==]: [True == 1 == 1.0] are one
    key, a float that is not an integer is kept as an odd mantissa and a
    negative exponent. *)
Inductive numkey :=
| NInt (z : Z)
| NFrac (s : bool) (m : positive) (e : Z)
| NInf (s : bool)
| NNan.

Inductive hkey :=
| HNone
| HStr (s : string)
| HNum (n : numkey).

(** What [json.loads] can return, and what the handlers build from it.
    A [dict] keeps its insertion order; its keys are hashable scalars. *)
Inductive pyval :=
| PNone
| PBool (b : bool)
| PInt (z : Z)
| PFloat (f : spec_float)
| PStr (s : string)
| PList (l : list pyval)
| PDict (d : list (hkey * pyval)).

Definition pydict := list (hkey * pyval).

Definition numkey_eqb (a b : numkey) : bool :=
  match a, b with
  | NInt x, NInt y => Z.eqb x y
  | NFrac s m e, NFrac s' m' e' => Bool.eqb s s' && Pos.eqb m m' && Z.eqb e e'
  | NInf s, NInf s' => Bool.eqb s s'
  | NNan, NNan => true
  | _, _ => false
  end.

Definition hkey_eqb (a b : hkey) : bool :=
  match a, b with
  | HNone, HNone => true
  | HStr s, HStr s' => String.eqb s s'
  | HNum n, HNum n' => numkey_eqb n n'
  | _, _ => false
  end.

(** [bool(v)] *)
Definition truthy (v : pyval) : bool :=
  match v with
  | PNone => false
  | PBool b => b
  | PInt z => negb (Z.eqb z 0)
  | PFloat (S754_zero _) => false
  | PFloat _ => true
  | PStr EmptyString => false
  | PStr _ => true
  | PList [] => false
  | PList _ => true
  | PDict [] => false
  | PDict _ => true
  end.

(** [a or b] *)
Definition py_or (a b : pyval) : pyval := if truthy a then a else b.

(** Cancel the factors of two shared by a mantissa and [2^-e]. *)
Fixpoint reduce_float (m : positive) (e : Z) : positive * Z :=
  match m with
  | xO m' => if (e <? 0)%Z then reduce_float m' (e + 1) else (m, e)
  | _ => (m, e)
  end.

Definition signed (s : bool) (z : Z) : Z := if s then (- z)%Z else z.

Definition float_key (f : spec_float) : numkey :=
  match f with
  | S754_zero _ => NInt 0
  | S754_infinity s => NInf s
  | S754_nan => NNan
  | S754_finite s m e =>
      let '(m', e') := reduce_float m e in
      if (e' <? 0)%Z then NFrac s m' e'
      else NInt (signed s (Z.pos m' * 2 ^ e'))
  end.

(** [hash(v)]: [None] stands for [TypeError: unhashable type]. *)
Definition hash_key (v : pyval) : option hkey :=
  match v with
  | PNone => Some HNone
  | PBool b => Some (HNum (NInt (if b then 1 else 0)))
  | PInt z => Some (HNum (NInt z))
  | PFloat f => Some (HNum (float_key f))
  | PStr s => Some (HStr s)
  | PList _ | PDict _ => None
  end.

(** A key as a value again, for [list(d)]. *)
Definition key_value (k : hkey) : pyval :=
  match k with
  | HNone => PNone
  | HStr s => PStr s
  | HNum (NInt z) => PInt z
  | HNum (NFrac s m e) => PFloat (S754_finite s m e)
  | HNum (NInf s) => PFloat (S754_infinity s)
  | HNum NNan => PFloat S754_nan
  end.

(** [v == "literal"] *)
Definition str_eq (v : pyval) (lit : string) : bool :=
  match v with
  | PStr s => String.eqb s lit
  | _ => false
  end.

(* ================================================================= *)
(** ** Insertion-ordered dictionaries *)

Fixpoint dict_lookup (k : hkey) (d : pydict) : option pyval :=
  match d with
  | [] => None
  | (k', v) :: d' => if hkey_eqb k k' then Some v else dict_lookup k d'
  end.

(** [d[k] = v]: an existing key keeps its place. *)
Fixpoint dict_store (k : hkey) (v : pyval) (d : pydict) : pydict :=
  match d with
  | [] => [(k, v)]
  | (k', v') :: d' =>
      if hkey_eqb k k' then (k', v) :: d' else (k', v') :: dict_store k v d'
  end.

(** [del d[k]] for a key that is present: no entry of [k] is left. *)
Fixpoint dict_remove (k : hkey) (d : pydict) : pydict :=
  match d with
  | [] => []
  | (k', v') :: d' =>
      if hkey_eqb k k' then dict_remove k d' else (k', v') :: dict_remove k d'
  end.

Definition dict_mem (k : hkey) (d : pydict) : bool :=
  match dict_lookup k d with Some _ => true | None => false end.

(** [{**a, **b}] and [a.update(b)] for a dict [b]. *)
Definition dict_merge (a b : pydict) : pydict :=
  fold_left (fun acc kv => dict_store (fst kv) (snd kv) acc) b a.

(** [dict.get(key)] with a string literal as key. *)
Definition dict_get (d : pydict) (key : string) : pyval :=
  match dict_lookup (HStr key) d with
  | Some v => v
  | None => PNone
  end.

(** [iter(v)] read out as a list; [None] when [v] is not iterable.  A
    string yields its characters, a dict its keys. *)
Definition py_iter (v : pyval) : option (list pyval) :=
  match v with
  | PList l => Some l
  | PStr s =>
      Some (map (fun c => PStr (String c EmptyString)) (list_ascii_of_string s))
  | PDict d => Some (map (fun kv => key_value (fst kv)) d)
  | PNone | PBool _ | PInt _ | PFloat _ => None
  end.

(* ================================================================= *)
(** ** Exceptions, the studio object and its surroundings *)

Inductive exn :=
| JSONDecodeError
| ValueError
| TypeError
| AttributeError
| KeyError
| ConnectionClosed
| OSError.

(** The [except] clauses of the module test for these three classes;
    every exception above derives from [Exception]. *)
Definition is_JSONDecodeError (e : exn) : bool :=
  match e with JSONDecodeError => true | _ => false end.

Definition is_ConnectionClosed (e : exn) : bool :=
  match e with ConnectionClosed => true | _ => false end.

Definition is_Exception (e : exn) : bool := true.

Inductive outcome (A : Type) :=
| Returns (a : A)
| Raises (e : exn).
Arguments Raises {A} e.

(** [dict.update(other)].  With a dict the keys of [other] are stored in
    order; anything else is read as a sequence of two-element sequences.
    The pairs stored before a bad element stay stored. *)
Fixpoint update_from_pairs (d : pydict) (items : list pyval)
  : pydict * option exn :=
  match items with
  | [] => (d, None)
  | item :: rest =>
      match py_iter item with
      | None => (d, Some TypeError)
      | Some [k; v] =>
          match hash_key k with
          | None => (d, Some TypeError)
          | Some hk => update_from_pairs (dict_store hk v d) rest
          end
      | Some _ => (d, Some ValueError)
      end
  end.

Definition dict_update (d : pydict) (other : pyval) : pydict * option exn :=
  match other with
  | PDict b => (dict_merge d b, None)
  | _ =>
      match py_iter other with
      | None => (d, Some TypeError)
      | Some items => update_from_pairs d items
      end
  end.

(** A connection object, by identity. *)
Definition websocket := nat.

(** A [str] holding JSON: the text of a value, written as the value
    itself, or text that [json.loads] rejects. *)
Inductive text :=
| Json (v : pyval)
| Invalid (raw : string).

Definition json_dumps (v : pyval) : text := Json v.

Definition json_loads (t : text) : outcome pyval :=
  match t with
  | Json v => Returns v
  | Invalid _ => Raises JSONDecodeError
  end.

Inductive level := INFO | WARNING | ERROR.

(** The f-strings handed to [logger], with their holes as arguments. *)
Inductive log_message :=
| Studio_is_already_running
| Starting_Dynamic_Studio_on (host port : pyval)
| Dynamic_Studio_started
| Dynamic_Studio_stopped
| New_WebSocket_connection (ws : websocket)
| WebSocket_connection_closed (ws : websocket)
| Unknown_message_type (message_type : pyval)
| Error_parsing_message (e : exn)
| Error_handling_message (e : exn)
| Updated_UI_component (component_id : pyval)
| MCP_tool_call (tool args : pyval)
| Created_component (component_id : pyval)
| Updated_component (component_id : pyval)
| Deleted_component (component_id : pyval).

(** The fields of [DynamicStudio], followed by what the object acts on:
    the transports, the listening socket and the log. *)
Record studio := Studio {
  config : pydict;
  components : pydict;
  event_stream : list pyval;
  websocket_clients : list websocket;
  is_running : bool;
  closed : list websocket;
  delivered : list (websocket * text);
  serving : bool;
  logged : list (level * log_message)
}.

Definition with_components (c : pydict) (s : studio) : studio :=
  Studio (config s) c (event_stream s) (websocket_clients s) (is_running s)
         (closed s) (delivered s) (serving s) (logged s).

Definition with_websocket_clients (l : list websocket) (s : studio) : studio :=
  Studio (config s) (components s) (event_stream s) l (is_running s)
         (closed s) (delivered s) (serving s) (logged s).

Definition with_is_running (b : bool) (s : studio) : studio :=
  Studio (config s) (components s) (event_stream s) (websocket_clients s) b
         (closed s) (delivered s) (serving s) (logged s).

Definition with_closed (l : list websocket) (s : studio) : studio :=
  Studio (config s) (components s) (event_stream s) (websocket_clients s)
         (is_running s) l (delivered s) (serving s) (logged s).

Definition with_delivered (l : list (websocket * text)) (s : studio) : studio :=
  Studio (config s) (components s) (event_stream s) (websocket_clients s)
         (is_running s) (closed s) l (serving s) (logged s).

Definition with_serving (b : bool) (s : studio) : studio :=
  Studio (config s) (components s) (event_stream s) (websocket_clients s)
         (is_running s) (closed s) (delivered s) b (logged s).

Definition with_logged (l : list (level * log_message)) (s : studio) : studio :=
  Studio (config s) (components s) (event_stream s) (websocket_clients s)
         (is_running s) (closed s) (delivered s) (serving s) l.

(* ================================================================= *)
(** ** The monad of methods *)

Definition M (A : Type) : Type := studio -> outcome A * studio.

Definition ret {A} (a : A) : M A := fun s => (Returns a, s).

Definition bind {A B} (c : M A) (k : A -> M B) : M B :=
  fun s =>
    match c s with
    | (Returns a, s') => k a s'
    | (Raises e, s') => (Raises e, s')
    end.

Definition raise {A} (e : exn) : M A := fun s => (Raises e, s).

Definition gets {A} (f : studio -> A) : M A := fun s => (Returns (f s), s).

Definition modify (f : studio -> studio) : M unit := fun s => (Returns tt, f s).

Definition lift {A} (o : outcome A) : M A := fun s => (o, s).

(** [try: body except ...: handler]; the handler answers [None] for an
    exception none of its clauses names, which then propagates. *)
Definition try_except {A} (body : M A) (handler : exn -> option (M A)) : M A :=
  fun s =>
    match body s with
    | (Returns a, s') => (Returns a, s')
    | (Raises e, s') =>
        match handler e with
        | Some h => h s'
        | None => (Raises e, s')
        end
    end.

(** [try: body finally: final]; an exception of [final] replaces the
    outcome of [body]. *)
Definition try_finally {A} (body : M A) (final : M unit) : M A :=
  fun s =>
    let '(r, s') := body s in
    match final s' with
    | (Returns _, s'') => (r, s'')
    | (Raises e, s'') => (Raises e, s'')
    end.

Declare Scope py_scope.
Delimit Scope py_scope with py.
Notation "x <- c1 ;; c2" := (bind c1 (fun x => c2))
  (at level 61, c1 at next level, right associativity) : py_scope.
Notation "c1 ;; c2" := (bind c1 (fun _ => c2))
  (at level 61, right associativity) : py_scope.
#[local] Open Scope py_scope.

Fixpoint for_each {A} (l : list A) (body : A -> M unit) : M unit :=
  match l with
  | [] => ret tt
  | x :: l' => body x ;; for_each l' body
  end.

Definition logger (lv : level) (m : log_message) : M unit :=
  modify (fun s => with_logged (logged s ++ [(lv, m)]) s).

(* ================================================================= *)
(** ** Library calls the methods make *)

(** [o.get(key)]: only a dict has the method. *)
Definition py_get (o : pyval) (key : string) : M pyval :=
  match o with
  | PDict d => ret (dict_get d key)
  | _ => raise AttributeError
  end.

(** [d[key]] *)
Definition py_getitem (d : pydict) (key : string) : M pyval :=
  match dict_lookup (HStr key) d with
  | Some v => ret v
  | None => raise KeyError
  end.

Definition mem (ws : websocket) (l : list websocket) : bool :=
  existsb (Nat.eqb ws) l.

(** [list.remove(x)]: drops the first occurrence, [ValueError] when
    there is none. *)
Fixpoint list_remove (ws : websocket) (l : list websocket)
  : option (list websocket) :=
  match l with
  | [] => None
  | x :: l' =>
      if Nat.eqb ws x then Some l'
      else match list_remove ws l' with
           | Some r => Some (x :: r)
           | None => None
           end
  end.

(** [await client.send(data)] *)
Definition send (client : websocket) (data : text) : M unit :=
  is_closed <- gets (fun s => mem client (closed s)) ;;
  if is_closed then raise ConnectionClosed
  else modify (fun s => with_delivered (delivered s ++ [(client, data)]) s).

(** [await client.close()] *)
Definition close (client : websocket) : M unit :=
  modify (fun s =>
    if mem client (closed s) then s else with_closed (closed s ++ [client]) s).

(** The transport of [ws] goes down (the peer hangs up, the network
    fails): an event of the surroundings, not a method. *)
Definition connection_lost (ws : websocket) (s : studio) : studio :=
  if mem ws (closed s) then s else with_closed (closed s ++ [ws]) s.

(** [await asyncio.create_task(websockets.serve(...))]: the bind either
    succeeds or raises what [bind_error] says. *)
Definition websockets_serve (bind_error : option exn) : M unit :=
  match bind_error with
  | None => modify (with_serving true)
  | Some e => raise e
  end.

(** [self.components[key] = value] *)
Definition components_setitem (key value : pyval) : M unit :=
  match hash_key key with
  | None => raise TypeError
  | Some k => modify (fun s => with_components (dict_store k value (components s)) s)
  end.

(** [key in self.components] *)
Definition components_contains (key : pyval) : M bool :=
  match hash_key key with
  | None => raise TypeError
  | Some k => gets (fun s => dict_mem k (components s))
  end.

(** [del self.components[key]] *)
Definition components_delitem (key : pyval) : M unit :=
  match hash_key key with
  | None => raise TypeError
  | Some k =>
      present <- gets (fun s => dict_mem k (components s)) ;;
      if present
      then modify (fun s => with_components (dict_remove k (components s)) s)
      else raise KeyError
  end.

(** [self.components[key].update(other)]: the stored dict is changed in
    place, so the entry keeps its position in the registry. *)
Definition components_update (key other : pyval) : M unit :=
  match hash_key key with
  | None => raise TypeError
  | Some k =>
      entry <- gets (fun s => dict_lookup k (components s)) ;;
      match entry with
      | None => raise KeyError
      | Some (PDict d) =>
          let '(d', err) := dict_update d other in
          modify (fun s => with_components (dict_store k (PDict d') (components s)) s) ;;
          match err with
          | None => ret tt
          | Some e => raise e
          end
      | Some _ => raise AttributeError
      end
  end.

(** [self.websocket_clients.remove(client)] *)
Definition clients_remove (client : websocket) : M unit :=
  l <- gets websocket_clients ;;
  match list_remove client l with
  | Some l' => modify (with_websocket_clients l')
  | None => raise ValueError
  end.

(* ================================================================= *)
(** ** class DynamicStudio *)

Definition STUDIO_CONFIG : pydict :=
  [ (HStr "host", PStr "localhost");
    (HStr "port", PInt 8080);
    (HStr "websocket_port", PInt 8081);
    (HStr "enable_mcp", PBool true);
    (HStr "enable_openjson_ui", PBool true);
    (HStr "enable_realtime", PBool true) ].

Module DynamicStudio.

(** [__init__]: the object in surroundings where nothing has happened. *)
Definition init (config : option pydict) : studio :=
  {| config := dict_merge STUDIO_CONFIG
                 (match config with Some c => c | None => [] end);
     components := [];
     event_stream := [];
     websocket_clients := [];
     is_running := false;
     closed := [];
     delivered := [];
     serving := false;
     logged := [] |}.

(** The first loop of [broadcast_message] over a list that no other
    task changes while the loop awaits; the clients whose [send] raised
    [ConnectionClosed] are collected in order.  The loop over the live
    list is [send_to_clients_among], further down. *)
Fixpoint send_to_clients (message_json : text) (clients : list websocket)
    (disconnected_clients : list websocket) : M (list websocket) :=
  match clients with
  | [] => ret disconnected_clients
  | client :: rest =>
      disconnected_clients' <-
        try_except
          (send client message_json ;; ret disconnected_clients)
          (fun e =>
             if is_ConnectionClosed e
             then Some (ret (disconnected_clients ++ [client]))
             else None) ;;
      send_to_clients message_json rest disconnected_clients'
  end.

(** [broadcast_message] when no other task is scheduled during its
    sends; [broadcast_message_among] is the method among other tasks. *)
Definition broadcast_message (message : pyval) : M unit :=
  let message_json := json_dumps message in
  clients <- gets websocket_clients ;;
  disconnected_clients <- send_to_clients message_json clients [] ;;
  for_each disconnected_clients clients_remove.

Definition handle_ui_update (now : string) (component : pyval) : M unit :=
  component_id <- py_get component "id" ;;
  if truthy component_id then
    components_setitem component_id component ;;
    broadcast_message (PDict
      [ (HStr "type", PStr "ui.studio.update");
        (HStr "component", component);
        (HStr "timestamp", PStr now) ]) ;;
    logger INFO (Updated_UI_component component_id)
  else ret tt.

Definition handle_mcp_tool_call (now : string) (tool args : pyval) : M unit :=
  logger INFO (MCP_tool_call tool args) ;;
  let response := PDict
    [ (HStr "success", PBool true);
      (HStr "tool", tool);
      (HStr "data", PDict []);
      (HStr "components", PList []) ] in
  broadcast_message (PDict
    [ (HStr "type", PStr "ui.mcp.tool.response");
      (HStr "response", response);
      (HStr "timestamp", PStr now) ]).

Definition handle_component_create (now : string) (component : pyval) : M unit :=
  id <- py_get component "id" ;;
  component_id <-
    (if truthy id then ret id else py_get component "componentId") ;;
  if truthy component_id then
    components_setitem component_id component ;;
    broadcast_message (PDict
      [ (HStr "type", PStr "ui.component.create");
        (HStr "component", component);
        (HStr "timestamp", PStr now) ]) ;;
    logger INFO (Created_component component_id)
  else ret tt.

Definition handle_component_update (now : string) (component_id props : pyval)
  : M unit :=
  present <- components_contains component_id ;;
  if present then
    components_update component_id props ;;
    broadcast_message (PDict
      [ (HStr "type", PStr "ui.component.update");
        (HStr "componentId", component_id);
        (HStr "props", props);
        (HStr "timestamp", PStr now) ]) ;;
    logger INFO (Updated_component component_id)
  else ret tt.

Definition handle_component_delete (now : string) (component_id : pyval)
  : M unit :=
  present <- components_contains component_id ;;
  if present then
    components_delitem component_id ;;
    broadcast_message (PDict
      [ (HStr "type", PStr "ui.component.delete");
        (HStr "componentId", component_id);
        (HStr "timestamp", PStr now) ]) ;;
    logger INFO (Deleted_component component_id)
  else ret tt.

(** The body of the [try] in [handle_message]. *)
Definition dispatch (now : string) (message : text) : M unit :=
  data <- lift (json_loads message) ;;
  message_type <- py_get data "type" ;;
  if str_eq message_type "ui.studio.update" then
    component <- py_get data "component" ;;
    handle_ui_update now component
  else if str_eq message_type "ui.mcp.tool.call" then
    tool <- py_get data "tool" ;;
    args <- py_get data "args" ;;
    handle_mcp_tool_call now tool args
  else if str_eq message_type "ui.component.create" then
    component <- py_get data "component" ;;
    handle_component_create now component
  else if str_eq message_type "ui.component.update" then
    component_id <- py_get data "componentId" ;;
    props <- py_get data "props" ;;
    handle_component_update now component_id props
  else if str_eq message_type "ui.component.delete" then
    component_id <- py_get data "componentId" ;;
    handle_component_delete now component_id
  else logger WARNING (Unknown_message_type message_type).

(** [now] is what [datetime.now().isoformat()] answers while the message
    is handled. *)
Definition handle_message (ws : websocket) (now : string) (message : text)
  : M unit :=
  try_except (dispatch now message)
    (fun e =>
       if is_JSONDecodeError e then Some (logger ERROR (Error_parsing_message e))
       else if is_Exception e then Some (logger ERROR (Error_handling_message e))
       else None).

Definition start (bind_error : option exn) : M unit :=
  running <- gets is_running ;;
  if running then logger WARNING Studio_is_already_running
  else
    modify (with_is_running true) ;;
    cfg <- gets config ;;
    host <- py_getitem cfg "host" ;;
    port <- py_getitem cfg "port" ;;
    logger INFO (Starting_Dynamic_Studio_on host port) ;;
    _ <- py_getitem cfg "host" ;;
    _ <- py_getitem cfg "websocket_port" ;;
    websockets_serve bind_error ;;
    logger INFO Dynamic_Studio_started.

(** [stop] when no other task is scheduled while it closes the
    connections; [stop_among] is the method among other tasks. *)
Definition stop : M unit :=
  running <- gets is_running ;;
  if negb running then ret tt
  else
    modify (with_is_running false) ;;
    clients <- gets websocket_clients ;;
    for_each clients close ;;
    modify (with_websocket_clients []) ;;
    logger INFO Dynamic_Studio_stopped.

(** [handle_websocket] in three parts, so that the work of other
    connections can be placed between them.  [inbound] lists the frames
    the connection yields, each with the clock reading while it is
    handled; [ending] is the [ConnectionClosed] that ends the iteration,
    or [None] when it just ends. *)
Definition handle_websocket_enter (ws : websocket) : M unit :=
  modify (fun s => with_websocket_clients (websocket_clients s ++ [ws]) s) ;;
  logger INFO (New_WebSocket_connection ws).

Definition handle_websocket_loop (ws : websocket)
    (inbound : list (string * text)) (ending : option exn) : M unit :=
  try_except
    (for_each inbound (fun m => handle_message ws (fst m) (snd m)) ;;
     match ending with
     | None => ret tt
     | Some e => raise e
     end)
    (fun e =>
       if is_ConnectionClosed e
       then Some (logger INFO (WebSocket_connection_closed ws))
       else None).

Definition handle_websocket_finally (ws : websocket) : M unit :=
  clients_remove ws.

Definition handle_websocket (ws : websocket)
    (inbound : list (string * text)) (ending : option exn) : M unit :=
  handle_websocket_enter ws ;;
  try_finally (handle_websocket_loop ws inbound ending)
              (handle_websocket_finally ws).

Definition handle_button_click (now : string) (component_id : pyval) : M unit :=
  broadcast_message (PDict
    [ (HStr "type", PStr "ui.event");
      (HStr "eventType", PStr "click");
      (HStr "componentId", component_id);
      (HStr "timestamp", PStr now) ]).

Definition handle_input_change (now : string) (component_id : pyval)
    (value : string) : M unit :=
  broadcast_message (PDict
    [ (HStr "type", PStr "ui.event");
      (HStr "eventType", PStr "change");
      (HStr "componentId", component_id);
      (HStr "value", PStr value);
      (HStr "timestamp", PStr now) ]).

(** What another task does while a method awaits: a connection is
    accepted (its handler appends it to the list), a handler reaches its
    [finally] (it removes its connection; a [ValueError] there is raised
    in that task, not in ours), a transport goes down. *)
Inductive meanwhile :=
| Accepted (ws : websocket)
| Finished (ws : websocket)
| Went_down (ws : websocket).

Definition happen (e : meanwhile) (s : studio) : studio :=
  match e with
  | Accepted ws => snd (handle_websocket_enter ws s)
  | Finished ws => snd (handle_websocket_finally ws s)
  | Went_down ws => connection_lost ws s
  end.

Definition happen_all (events : list meanwhile) (s : studio) : studio :=
  fold_left (fun st e => happen e st) events s.

(** The first loop of [broadcast_message] over the live list.  [schedule]
    lists what happens during the first await, the second, and so on; [i]
    is the position the list iterator has reached.  Every turn reads
    [self.websocket_clients] anew: the loop ends when [i] is past its
    end.  Once the schedule is used up nothing changes the list any more,
    and the rest of it is walked as in [send_to_clients]. *)
Fixpoint send_to_clients_among (schedule : list (list meanwhile))
    (message_json : text) (i : nat) (disconnected_clients : list websocket)
  : M (list websocket) :=
  match schedule with
  | [] =>
      clients <- gets websocket_clients ;;
      send_to_clients message_json (skipn i clients) disconnected_clients
  | events :: schedule' =>
      clients <- gets websocket_clients ;;
      match nth_error clients i with
      | None => ret disconnected_clients
      | Some client =>
          disconnected_clients' <-
            try_except
              (send client message_json ;; ret disconnected_clients)
              (fun e =>
                 if is_ConnectionClosed e
                 then Some (ret (disconnected_clients ++ [client]))
                 else None) ;;
          modify (happen_all events) ;;
          send_to_clients_among schedule' message_json (S i)
            disconnected_clients'
      end
  end.

(** [broadcast_message] among other tasks. *)
Definition broadcast_message_among (schedule : list (list meanwhile))
    (message : pyval) : M unit :=
  let message_json := json_dumps message in
  disconnected_clients <- send_to_clients_among schedule message_json 0 [] ;;
  for_each disconnected_clients clients_remove.

(** The loop of [stop] over the live list, in the same way. *)
Fixpoint close_clients_among (schedule : list (list meanwhile)) (i : nat)
  : M unit :=
  match schedule with
  | [] =>
      clients <- gets websocket_clients ;;
      for_each (skipn i clients) close
  | events :: schedule' =>
      clients <- gets websocket_clients ;;
      match nth_error clients i with
      | None => ret tt
      | Some client =>
          close client ;;
          modify (happen_all events) ;;
          close_clients_among schedule' (S i)
      end
  end.

(** [stop] among other tasks. *)
Definition stop_among (schedule : list (list meanwhile)) : M unit :=
  running <- gets is_running ;;
  if negb running then ret tt
  else
    modify (with_is_running false) ;;
    close_clients_among schedule 0 ;;
    modify (with_websocket_clients []) ;;
    logger INFO Dynamic_Studio_stopped.

End DynamicStudio.

Import DynamicStudio.

(* ================================================================= *)
(** ** Vocabulary of the statements *)

(** *** Runs of frames *)

(** The frames [{"type": "ui.component.create", "component": ...}] and
    [{"type": "ui.component.update", "componentId": ..., "props": ...}]. *)
Definition create_message (component : pyval) : text :=
  Json (PDict [ (HStr "type", PStr "ui.component.create");
                (HStr "component", component) ]).

Definition update_message (component_id props : pyval) : text :=
  Json (PDict [ (HStr "type", PStr "ui.component.update");
                (HStr "componentId", component_id);
                (HStr "props", props) ]).

(** The component of the scenario: a button [c1] labelled "Go". *)
Definition a_button : pyval :=
  PDict [ (HStr "id", PStr "c1");
          (HStr "kind", PStr "button");
          (HStr "props", PDict [(HStr "label", PStr "Go")]) ].

(** The frames of a connection, handled one after the other. *)
Definition handle_all (ws : websocket) (inbound : list (string * text))
    (s : studio) : studio :=
  fold_left (fun st m => snd (handle_message ws (fst m) (snd m) st)) inbound s.

(** Frames of any connections, handled in the order of arrival. *)
Definition handle_sequence (inbound : list (websocket * string * text))
    (s : studio) : studio :=
  fold_left
    (fun st m => snd (handle_message (fst (fst m)) (snd (fst m)) (snd m) st))
    inbound s.

(** *** The effect of a broadcast *)

Definition is_open (s : studio) (c : websocket) : bool :=
  negb (mem c (closed s)).

(** What one broadcast leaves behind: the frame is appended, in order, to
    what was delivered to each open client, and the closed clients are
    gone from the list. *)
Definition broadcast_effect (message : pyval) (s : studio) : studio :=
  with_websocket_clients (filter (is_open s) (websocket_clients s))
    (with_delivered
       (delivered s
        ++ map (fun c => (c, json_dumps message))
               (filter (is_open s) (websocket_clients s)))
       s).

(** [list.remove] of each element of [r] in turn; [None] as soon as one
    of them raises. *)
Fixpoint remove_each (r l : list websocket) : option (list websocket) :=
  match r with
  | [] => Some l
  | x :: r' =>
      match list_remove x l with
      | Some l' => remove_each r' l'
      | None => None
      end
  end.

(** The transports of [clients] closed one after the other. *)
Definition close_all (clients : list websocket) (s : studio) : studio :=
  fold_left (fun st c => connection_lost c st) clients s.

(** *** Outcomes of handling a frame *)


(** What handling one frame cannot touch. *)
Definition same_surroundings (s s' : studio) : Prop :=
  closed s' = closed s
  /\ config s' = config s
  /\ event_stream s' = event_stream s
  /\ is_running s' = is_running s
  /\ serving s' = serving s
  /\ (websocket_clients s' = websocket_clients s
      \/ websocket_clients s' = filter (is_open s) (websocket_clients s)).

(** The line the [except] clauses of [handle_message] log for [e]. *)
Definition error_entry (e : exn) : level * log_message :=
  (ERROR, if is_JSONDecodeError e then Error_parsing_message e
          else Error_handling_message e).

(** The log lines written between two states. *)
Definition added_log (s s' : studio) : list (level * log_message) :=
  skipn (List.length (logged s)) (logged s').

(** The frame was rejected as undecodable: handling it took the
    [except json.JSONDecodeError] clause, which is the one that writes
    "Error parsing message". *)
Definition decode_fails (ws : websocket) (now : string) (message : text)
    (s : studio) : Prop :=
  exists e, In (ERROR, Error_parsing_message e)
               (added_log s (snd (handle_message ws now message s))).

(** The frame is an object without a [type] field. *)
Definition type_absent (message : text) : Prop :=
  exists d, message = Json (PDict d) /\ dict_lookup (HStr "type") d = None.

(** The type is one of the five that [handle_message] tests for. *)
Definition recognized (message_type : pyval) : bool :=
  str_eq message_type "ui.studio.update"
  || str_eq message_type "ui.mcp.tool.call"
  || str_eq message_type "ui.component.create"
  || str_eq message_type "ui.component.update"
  || str_eq message_type "ui.component.delete".

(** [component_id in self.components] is not true: the id is hashable
    and no key, or it is not hashable at all. *)
Definition absent_id (component_id : pyval) (s : studio) : Prop :=
  forall k, hash_key component_id = Some k -> dict_mem k (components s) = false.

(** The object is a [ui.component.update] or a [ui.component.delete]. *)
Definition is_update_or_delete (d : pydict) : Prop :=
  str_eq (dict_get d "type") "ui.component.update" = true
  \/ str_eq (dict_get d "type") "ui.component.delete" = true.

(** *** What the registry files a component under *)

(** The id a stored component answers to: [id], or [componentId] when
    [id] is missing or falsy. *)
Definition registered_id (c : pydict) : pyval :=
  py_or (dict_get c "id") (dict_get c "componentId").

(** Every entry is a dict filed under its own non-empty [id]. *)
Definition keyed_by_id (components : pydict) : Prop :=
  forall k v, dict_lookup k components = Some v ->
    exists c, v = PDict c
      /\ truthy (dict_get c "id") = true
      /\ hash_key (dict_get c "id") = Some k.

(** Every entry is a dict filed under its non-empty registered id. *)
Definition keyed_by_registered_id (components : pydict) : Prop :=
  forall k v, dict_lookup k components = Some v ->
    exists c, v = PDict c
      /\ truthy (registered_id c) = true
      /\ hash_key (registered_id c) = Some k.

(** [props] would store something under [key]. *)
Definition writes (props : pyval) (key : string) : bool :=
  dict_mem (HStr key) (fst (dict_update [] props)).

(** The frame is not a [ui.component.update] whose props store an [id]
    or a [componentId]. *)
Definition leaves_id_alone (message : text) : bool :=
  match message with
  | Json (PDict data) =>
      if str_eq (dict_get data "type") "ui.component.update"
      then negb (writes (dict_get data "props") "id")
           && negb (writes (dict_get data "props") "componentId")
      else true
  | _ => true
  end.

(** *** What a sequence of stores leaves under a key *)

(** The value the entries of [b] leave under [k] when they are stored
    one after the other. *)
Fixpoint last_stored (k : hkey) (b : pydict) : option pyval :=
  match b with
  | [] => None
  | (k', v) :: b' =>
      match last_stored k b' with
      | Some w => Some w
      | None => if hkey_eqb k k' then Some v else None
      end
  end.

(** The same for the pairs of a sequence, up to its first bad element. *)
Fixpoint last_paired (k : hkey) (items : list pyval) : option pyval :=
  match items with
  | [] => None
  | item :: rest =>
      match py_iter item with
      | Some [a; v] =>
          match hash_key a with
          | Some hk =>
              match last_paired k rest with
              | Some w => Some w
              | None => if hkey_eqb k hk then Some v else None
              end
          | None => None
          end
      | _ => None
      end
  end.

(** *** Outbound frames *)

(** The frame a handler broadcasts: its [type], its fields, and the
    [timestamp] last. *)
Definition event (type : string) (fields : pydict) (now : string) : pyval :=
  PDict ((HStr "type", PStr type) :: fields ++ [(HStr "timestamp", PStr now)]).

(** One more line in the log. *)
Definition log_line (lv : level) (m : log_message) (s : studio) : studio :=
  with_logged (logged s ++ [(lv, m)]) s.

(** The frame is a JSON object with a string [type] and a string
    [timestamp]. *)
Definition stamped (t : text) : Prop :=
  exists m ty now,
    t = Json (PDict m)
    /\ dict_get m "type" = PStr ty
    /\ dict_get m "timestamp" = PStr now.

(** [d] is a [ui.component.create] whose component [c] has a non-empty
    registered id that hashes to [k]. *)
Definition creates (d c : pydict) (k : hkey) : Prop :=
  str_eq (dict_get d "type") "ui.component.create" = true
  /\ dict_get d "component" = PDict c
  /\ truthy (registered_id c) = true
  /\ hash_key (registered_id c) = Some k.

(** [d] is a [ui.studio.update] whose component [c] has a non-empty [id]
    that hashes to [k]. *)
Definition upserts (d c : pydict) (k : hkey) : Prop :=
  str_eq (dict_get d "type") "ui.studio.update" = true
  /\ dict_get d "component" = PDict c
  /\ truthy (dict_get c "id") = true
  /\ hash_key (dict_get c "id") = Some k.

(** [d] is a [ui.component.update], or a [ui.component.delete], whose
    [componentId] hashes to [k]. *)
Definition updates (d : pydict) (k : hkey) : Prop :=
  str_eq (dict_get d "type") "ui.component.update" = true
  /\ hash_key (dict_get d "componentId") = Some k.

Definition deletes (d : pydict) (k : hkey) : Prop :=
  str_eq (dict_get d "type") "ui.component.delete" = true
  /\ hash_key (dict_get d "componentId") = Some k.

(** The frame goes to every open client of the list, in order. *)
Definition to_open_clients (message : pyval) (s : studio)
  : list (websocket * text) :=
  map (fun c => (c, json_dumps message))
      (filter (is_open s) (websocket_clients s)).

(** *** Everything that can happen to a studio *)

(** A frame arrives, a connection is accepted, a handler reaches its
    [finally], a transport goes down, the server is started or stopped,
    a rendered button is clicked, a rendered input is changed. *)
Inductive action :=
| Frame (ws : websocket) (now : string) (message : text)
| Connect (ws : websocket)
| Disconnect (ws : websocket)
| Lost (ws : websocket)
| Start (bind_error : option exn)
| Stop
| Click (now : string) (component_id : pyval)
| Change (now : string) (component_id : pyval) (value : string).

Definition perform (a : action) (s : studio) : studio :=
  match a with
  | Frame ws now message => snd (handle_message ws now message s)
  | Connect ws => snd (handle_websocket_enter ws s)
  | Disconnect ws => snd (handle_websocket_finally ws s)
  | Lost ws => connection_lost ws s
  | Start bind_error => snd (start bind_error s)
  | Stop => snd (stop s)
  | Click now component_id => snd (handle_button_click now component_id s)
  | Change now component_id value =>
      snd (handle_input_change now component_id value s)
  end.

Definition run (actions : list action) (s : studio) : studio :=
  fold_left (fun st a => perform a st) actions s.

Definition is_frame (a : action) : bool :=
  match a with Frame _ _ _ => true | _ => false end.

(** Between the two states only connections came, went or closed, and
    the log may have grown. *)
Definition only_connections (s s' : studio) : Prop :=
  components s' = components s
  /\ is_running s' = is_running s
  /\ delivered s' = delivered s
  /\ config s' = config s
  /\ event_stream s' = event_stream s
  /\ serving s' = serving s.

(** From [s] to [s'] connections came and went and frames were sent,
    every one of them with the text [data]; nothing else changed. *)
Definition only_sends (data : text) (s s' : studio) : Prop :=
  components s' = components s
  /\ is_running s' = is_running s
  /\ config s' = config s
  /\ event_stream s' = event_stream s
  /\ serving s' = serving s
  /\ exists sent,
       delivered s' = delivered s ++ sent
       /\ forall c t, In (c, t) sent -> t = data.

(** The first, third, fifth ... element of a list. *)
Fixpoint every_other {A} (l : list A) : list A :=
  match l with
  | [] => []
  | a :: l' => a :: match l' with
                    | [] => []
                    | _ :: l'' => every_other l''
                    end
  end.

(** Each handler finishes while [stop] awaits the close of its own
    connection. *)
Definition each_finishes_at_its_close (clients : list websocket)
  : list (list meanwhile) :=
  map (fun c => [Finished c]) (every_other clients).

(* ================================================================= *)
(** ** Keys and dictionaries *)

Lemma numkey_eqb_eq (a b : numkey) : numkey_eqb a b = true <-> a = b.
Proof.
  destruct a, b; simpl; split; intro H; try discriminate; try reflexivity.
  - apply Z.eqb_eq in H. now subst.
  - injection H as ->. apply Z.eqb_refl.
  - apply andb_true_iff in H as [H He]. apply andb_true_iff in H as [Hs Hm].
    apply Bool.eqb_prop in Hs. apply Pos.eqb_eq in Hm. apply Z.eqb_eq in He.
    now subst.
  - injection H as -> -> ->.
    now rewrite Bool.eqb_reflx, Pos.eqb_refl, Z.eqb_refl.
  - apply Bool.eqb_prop in H. now subst.
  - injection H as ->. apply Bool.eqb_reflx.
Qed.

Lemma hkey_eqb_eq (a b : hkey) : hkey_eqb a b = true <-> a = b.
Proof.
  destruct a, b; simpl; split; intro H; try discriminate; try reflexivity.
  - apply String.eqb_eq in H. now subst.
  - injection H as ->. apply String.eqb_refl.
  - apply numkey_eqb_eq in H. now subst.
  - injection H as ->. now apply numkey_eqb_eq.
Qed.

Lemma hkey_eqb_refl (k : hkey) : hkey_eqb k k = true.
Proof. now apply hkey_eqb_eq. Qed.

Lemma hkey_eqb_neq (a b : hkey) : a <> b -> hkey_eqb a b = false.
Proof.
  intro H. destruct (hkey_eqb a b) eqn:E; [|reflexivity].
  apply hkey_eqb_eq in E. contradiction.
Qed.

Lemma hkey_eq_dec (a b : hkey) : {a = b} + {a <> b}.
Proof.
  destruct (hkey_eqb a b) eqn:E.
  - left. now apply hkey_eqb_eq.
  - right. intro H. apply hkey_eqb_eq in H. congruence.
Qed.

Lemma dict_lookup_store_eq (k : hkey) (v : pyval) (d : pydict) :
  dict_lookup k (dict_store k v d) = Some v.
Proof.
  induction d as [|[k' v'] d IH]; simpl.
  - now rewrite hkey_eqb_refl.
  - destruct (hkey_eqb k k') eqn:E; simpl; rewrite E; [reflexivity | exact IH].
Qed.

Lemma dict_lookup_store_ne (k k' : hkey) (v : pyval) (d : pydict) :
  k <> k' -> dict_lookup k' (dict_store k v d) = dict_lookup k' d.
Proof.
  intro Hne. induction d as [|[k0 v0] d IH]; simpl.
  - rewrite hkey_eqb_neq; [reflexivity | congruence].
  - destruct (hkey_eqb k k0) eqn:E; simpl.
    + apply hkey_eqb_eq in E. subst k0.
      rewrite (hkey_eqb_neq (a:=k') (b:=k)); [reflexivity | congruence].
    + now rewrite IH.
Qed.

Lemma dict_lookup_store (k k' : hkey) (v : pyval) (d : pydict) :
  dict_lookup k' (dict_store k v d)
  = if hkey_eqb k' k then Some v else dict_lookup k' d.
Proof.
  destruct (hkey_eqb k' k) eqn:E.
  - apply hkey_eqb_eq in E. subst. apply dict_lookup_store_eq.
  - apply dict_lookup_store_ne. intro H. subst.
    now rewrite hkey_eqb_refl in E.
Qed.

Lemma dict_lookup_remove_eq (k : hkey) (d : pydict) :
  dict_lookup k (dict_remove k d) = None.
Proof.
  induction d as [|[k' v'] d IH]; simpl; [reflexivity|].
  destruct (hkey_eqb k k') eqn:E; simpl; [exact IH | now rewrite E].
Qed.

Lemma dict_lookup_remove_ne (k k' : hkey) (d : pydict) :
  k <> k' -> dict_lookup k' (dict_remove k d) = dict_lookup k' d.
Proof.
  intro Hne. induction d as [|[k0 v0] d IH]; simpl; [reflexivity|].
  destruct (hkey_eqb k k0) eqn:E; simpl.
  - apply hkey_eqb_eq in E. subst k0.
    rewrite (hkey_eqb_neq (a:=k') (b:=k)); [exact IH | congruence].
  - now rewrite IH.
Qed.

Lemma dict_lookup_merge_last (k : hkey) (b a : pydict) :
  dict_lookup k (dict_merge a b)
  = match last_stored k b with
    | Some w => Some w
    | None => dict_lookup k a
    end.
Proof.
  unfold dict_merge. revert a.
  induction b as [|[k0 v0] b IH]; intro a; simpl; [reflexivity|].
  rewrite IH, dict_lookup_store.
  destruct (last_stored k b); [reflexivity|].
  now destruct (hkey_eqb k k0).
Qed.

(** A merge is an override: a key that [b] stores reads as in [{**b}],
    any other key as before. *)
Lemma dict_lookup_merge (k : hkey) (b a : pydict) :
  dict_lookup k (dict_merge a b)
  = match dict_lookup k (dict_merge [] b) with
    | Some v => Some v
    | None => dict_lookup k a
    end.
Proof.
  rewrite (dict_lookup_merge_last k b a), (dict_lookup_merge_last k b []).
  simpl. now destruct (last_stored k b).
Qed.

Lemma dict_lookup_pairs_last (k : hkey) (items : list pyval) (d : pydict) :
  dict_lookup k (fst (update_from_pairs d items))
  = match last_paired k items with
    | Some w => Some w
    | None => dict_lookup k d
    end.
Proof.
  revert d. induction items as [|item rest IH]; intro d; simpl; [reflexivity|].
  destruct (py_iter item) as [[|a [|v [|x l]]]|]; simpl; try reflexivity.
  destruct (hash_key a) as [hk|]; simpl; [|reflexivity].
  rewrite IH, dict_lookup_store.
  destruct (last_paired k rest); [reflexivity|].
  now destruct (hkey_eqb k hk).
Qed.

(** [dict.update] never does more than override: whatever [other] is, a
    key reads afterwards as [{}.update(other)] leaves it, or as before. *)
Lemma dict_lookup_update (k : hkey) (other : pyval) (d : pydict) :
  dict_lookup k (fst (dict_update d other))
  = match dict_lookup k (fst (dict_update [] other)) with
    | Some v => Some v
    | None => dict_lookup k d
    end.
Proof.
  assert (P : forall items,
    dict_lookup k (fst (update_from_pairs d items))
    = match dict_lookup k (fst (update_from_pairs [] items)) with
      | Some v => Some v
      | None => dict_lookup k d
      end).
  { intro items.
    rewrite (dict_lookup_pairs_last k items d), (dict_lookup_pairs_last k items []).
    simpl. now destruct (last_paired k items). }
  destruct other as [| | | | s | l | b]; simpl; try reflexivity.
  - apply P.
  - apply P.
  - apply dict_lookup_merge.
Qed.

Lemma dict_store_same (k : hkey) (v : pyval) (d : pydict) :
  dict_lookup k d = Some v -> dict_store k v d = d.
Proof.
  induction d as [|[k' v'] d IH]; simpl; [discriminate|].
  destruct (hkey_eqb k k') eqn:E.
  - now intros [= ->].
  - intro H. now rewrite IH.
Qed.

Lemma dict_store_keys (k : hkey) (v : pyval) (d : pydict) :
  dict_mem k d = true -> map fst (dict_store k v d) = map fst d.
Proof.
  unfold dict_mem.
  induction d as [|[k' v'] d IH]; simpl; [discriminate|].
  destruct (hkey_eqb k k') eqn:E; simpl; [reflexivity|].
  intro H. now rewrite IH.
Qed.

Lemma dict_remove_fresh (k : hkey) (d : pydict) :
  dict_lookup k d = None -> dict_remove k d = d.
Proof.
  induction d as [|[k' v'] d IH]; simpl; [reflexivity|].
  destruct (hkey_eqb k k') eqn:E; [discriminate|].
  intro H. now rewrite IH.
Qed.

Lemma dict_remove_store_fresh (k : hkey) (v : pyval) (d : pydict) :
  dict_lookup k d = None -> dict_remove k (dict_store k v d) = d.
Proof.
  induction d as [|[k' v'] d IH]; simpl.
  - now rewrite hkey_eqb_refl.
  - destruct (hkey_eqb k k') eqn:E; [discriminate|].
    intro H. simpl. now rewrite E, IH.
Qed.

Lemma last_stored_none (k : hkey) (b : pydict) :
  dict_lookup k b = None -> last_stored k b = None.
Proof.
  induction b as [|[k' v] b IH]; simpl; [reflexivity|].
  destruct (hkey_eqb k k'); [discriminate|].
  intro H. now rewrite IH.
Qed.

Lemma last_stored_some (k : hkey) (b : pydict) :
  dict_mem k b = true -> exists w, last_stored k b = Some w.
Proof.
  unfold dict_mem.
  induction b as [|[k' v] b IH]; simpl; [discriminate|].
  destruct (last_stored k b) as [w|]; [now exists w|].
  destruct (hkey_eqb k k'); [now exists v|].
  intro H. now destruct (IH H).
Qed.

(** [dict.update] on what JSON can carry: a list of pairs (a two-letter
    string is a pair of letters), a sequence that goes wrong after its
    first pair, and a value that is not iterable. *)
Example update_from_a_list_of_pairs :
  dict_update [] (PList [PList [PStr "a"; PInt 1]; PStr "bc"])
  = ([(HStr "a", PInt 1); (HStr "b", PStr "c")], None).
Proof. reflexivity. Qed.

Example update_keeps_the_pairs_before_a_bad_one :
  dict_update [] (PList [PList [PStr "a"; PInt 1]; PStr "xyz"])
  = ([(HStr "a", PInt 1)], Some ValueError).
Proof. reflexivity. Qed.

Example update_from_none :
  dict_update [(HStr "a", PInt 1)] PNone = ([(HStr "a", PInt 1)], Some TypeError).
Proof. reflexivity. Qed.

(** [1], [1.0] and [True] are one key; [1.5] is another. *)
Example numeric_keys :
  hash_key (PFloat (S754_finite false 4503599627370496 (-52)))
  = hash_key (PInt 1)
  /\ hash_key (PBool true) = hash_key (PInt 1)
  /\ hash_key (PFloat (S754_finite false 6755399441055744 (-52)))
     = Some (HNum (NFrac false 3 (-1))).
Proof. repeat split. Qed.

(* ================================================================= *)
(** ** The broadcast hub *)

Lemma with_delivered_id (s : studio) : with_delivered (delivered s) s = s.
Proof. now destruct s. Qed.

Lemma with_websocket_clients_id (s : studio) :
  with_websocket_clients (websocket_clients s) s = s.
Proof. now destruct s. Qed.

(** One step of evaluation of the monad's combinators. *)
Ltac mred :=
  cbv beta iota delta
    [bind ret raise gets modify lift logger try_except try_finally].

Lemma send_to_clients_eq (data : text) (clients acc : list websocket) (s : studio) :
  send_to_clients data clients acc s
  = (Returns (acc ++ filter (fun c => mem c (closed s)) clients),
     with_delivered
       (delivered s ++ map (fun c => (c, data)) (filter (is_open s) clients)) s).
Proof.
  revert acc s. induction clients as [|c clients IH]; intros acc s.
  - simpl. now rewrite !app_nil_r, with_delivered_id.
  - simpl. unfold send, is_open at 1. mred.
    destruct (mem c (closed s)) eqn:E; simpl.
    + rewrite IH. now rewrite <- app_assoc.
    + rewrite IH. simpl. unfold is_open. simpl. now rewrite <- app_assoc.
Qed.

Lemma list_remove_middle (x : websocket) (pre l : list websocket) :
  ~ In x pre -> list_remove x (pre ++ x :: l) = Some (pre ++ l).
Proof.
  induction pre as [|y pre IH]; intro H; simpl.
  - now rewrite Nat.eqb_refl.
  - destruct (Nat.eqb x y) eqn:E.
    + apply Nat.eqb_eq in E. subst. exfalso. apply H. now left.
    + rewrite IH; [reflexivity|]. intro Hin. apply H. now right.
Qed.

(** Every client collected by the first loop is still in the list when
    the second loop removes it, so no [remove] fails. *)
Lemma remove_each_filter (p : websocket -> bool) (l pre : list websocket) :
  (forall y, In y pre -> p y = false) ->
  remove_each (filter p l) (pre ++ l)
  = Some (pre ++ filter (fun c => negb (p c)) l).
Proof.
  revert pre. induction l as [|x l IH]; intros pre Hpre; simpl.
  - reflexivity.
  - destruct (p x) eqn:E; simpl.
    + rewrite list_remove_middle.
      * now apply IH.
      * intro Hin. apply Hpre in Hin. congruence.
    + replace (pre ++ x :: l) with ((pre ++ [x]) ++ l)
        by now rewrite <- app_assoc.
      rewrite IH.
      * now rewrite <- app_assoc.
      * intros y Hin. apply in_app_or in Hin as [Hin|[<-|[]]]; auto.
Qed.

Lemma for_each_clients_remove (r l : list websocket) (s : studio) :
  remove_each r (websocket_clients s) = Some l ->
  for_each r clients_remove s = (Returns tt, with_websocket_clients l s).
Proof.
  revert s. induction r as [|x r IH]; intros s H; simpl in *.
  - injection H as <-. now rewrite with_websocket_clients_id.
  - unfold clients_remove at 1. mred.
    destruct (list_remove x (websocket_clients s)) as [l'|]; [|discriminate].
    rewrite (IH (with_websocket_clients l' s)); [|exact H].
    now destruct s.
Qed.

Lemma broadcast_message_eq (message : pyval) (s : studio) :
  broadcast_message message s = (Returns tt, broadcast_effect message s).
Proof.
  unfold broadcast_message. mred. rewrite send_to_clients_eq. simpl.
  erewrite for_each_clients_remove.
  - unfold broadcast_effect. now destruct s.
  - simpl.
    apply (remove_each_filter (fun c => mem c (closed s)) (websocket_clients s) []).
    intros y [].
Qed.

(** When no other task is scheduled during its awaits, a broadcast
    returns normally whatever the state of the connections.  Every
    client that was in the list when it began has either been sent the
    encoded message or is no longer in the list: the open ones all
    receive it, each once and in list order, and stay; the closed ones
    are removed and receive nothing. *)
Theorem broadcast_reaches_or_prunes (message : pyval) (s : studio) :
  exists s' sent,
    broadcast_message message s = (Returns tt, s')
    /\ delivered s' = delivered s ++ sent
    /\ sent = map (fun c => (c, json_dumps message))
                  (filter (is_open s) (websocket_clients s))
    /\ websocket_clients s' = filter (is_open s) (websocket_clients s)
    /\ closed s' = closed s
    /\ (forall c, In c (websocket_clients s) ->
          In (c, json_dumps message) sent \/ ~ In c (websocket_clients s'))
    /\ (forall c, In c (websocket_clients s) -> mem c (closed s) = false ->
          In (c, json_dumps message) sent /\ In c (websocket_clients s'))
    /\ (forall c, In c (websocket_clients s) -> mem c (closed s) = true ->
          ~ In c (websocket_clients s')).
Proof.
  exists (broadcast_effect message s).
  exists (map (fun c => (c, json_dumps message))
              (filter (is_open s) (websocket_clients s))).
  assert (Hopen : forall c, In c (websocket_clients s) ->
            mem c (closed s) = false ->
            In (c, json_dumps message)
               (map (fun c => (c, json_dumps message))
                    (filter (is_open s) (websocket_clients s)))
            /\ In c (filter (is_open s) (websocket_clients s))).
  { intros c Hin Hc.
    assert (In c (filter (is_open s) (websocket_clients s))) as Hf.
    { apply filter_In. split; [exact Hin|]. unfold is_open. now rewrite Hc. }
    split; [|exact Hf].
    apply in_map_iff. now exists c. }
  assert (Hclosed : forall c, mem c (closed s) = true ->
            ~ In c (filter (is_open s) (websocket_clients s))).
  { intros c Hc Hin. apply filter_In in Hin as [_ Ho].
    unfold is_open in Ho. rewrite Hc in Ho. discriminate. }
  repeat split; try reflexivity.
  - apply broadcast_message_eq.
  - intros c Hin. destruct (mem c (closed s)) eqn:Hc.
    + right. now apply Hclosed.
    + left. now apply Hopen.
  - now apply Hopen.
  - now apply Hopen.
  - intros c _ Hc. now apply Hclosed.
Qed.

(** With nothing scheduled, the loop over the live list is the loop
    over the list as it was at the start. *)
Lemma broadcast_message_among_nothing (message : pyval) (s : studio) :
  broadcast_message_among [] message s = broadcast_message message s.
Proof. reflexivity. Qed.

(** C3 (the code departs from it). The first loop of the broadcast walks
    the live list, and a handler that reaches its [finally] while the
    broadcast awaits a [send] shortens that list under the iterator.
    With three open clients, handler 1 finishing during the send to
    client 2 ends the loop early: client 3 is sent nothing and stays in
    the list.  With client 1 down and its handler finishing during the
    failing send to it, client 2 is skipped, and the removal of client 1
    after the loop raises [ValueError] to the caller of the broadcast. *)
Theorem broadcast_among_others_skips_a_client (message : pyval) :
  let s := run [Connect 1; Connect 2; Connect 3] (init None) in
  let r := broadcast_message_among [[]; [Finished 1]] message s in
  let s' := connection_lost 1 (run [Connect 1; Connect 2] (init None)) in
  let r' := broadcast_message_among [[Finished 1]] message s' in
  (websocket_clients s = [1; 2; 3]
   /\ closed s = []
   /\ fst r = Returns tt
   /\ delivered (snd r) = [(1, json_dumps message); (2, json_dumps message)]
   /\ websocket_clients (snd r) = [2; 3]
   /\ closed (snd r) = [])
  /\ (websocket_clients s' = [1; 2]
      /\ closed s' = [1]
      /\ fst r' = Raises ValueError
      /\ delivered (snd r') = []
      /\ websocket_clients (snd r') = [2]
      /\ closed (snd r') = [1]).
Proof. repeat split. Qed.

(** Three clients, the second one closed: the other two receive the
    frame, the closed one is dropped from the list. *)
Example broadcast_with_one_closed_client (message : pyval) :
  let s := with_closed [2] (with_websocket_clients [1; 2; 3] (init None)) in
  broadcast_message message s
  = (Returns tt,
     with_delivered [(1, json_dumps message); (3, json_dumps message)]
       (with_websocket_clients [1; 3] s)).
Proof. reflexivity. Qed.

(* ================================================================= *)
(** ** The dispatcher *)

Lemma str_eq_true (v : pyval) (lit : string) :
  str_eq v lit = true -> v = PStr lit.
Proof.
  destruct v; simpl; try discriminate.
  intro H. apply String.eqb_eq in H. now subst.
Qed.

(** Unfold a handler and run it as far as its tests allow. *)
Ltac run_handler :=
  unfold handle_message, dispatch, handle_ui_update, handle_mcp_tool_call,
    handle_component_create, handle_component_update, handle_component_delete,
    components_setitem, components_contains, components_delitem,
    components_update, py_get, json_loads;
  mred; simpl.



#[local] Arguments dict_get : simpl never.
#[local] Arguments str_eq : simpl never.
#[local] Arguments truthy : simpl never.
#[local] Arguments hash_key : simpl never.
#[local] Arguments dict_mem : simpl never.
#[local] Arguments dict_lookup : simpl never.
#[local] Arguments dict_store : simpl never.
#[local] Arguments dict_remove : simpl never.
#[local] Arguments dict_update : simpl never.
#[local] Arguments broadcast_effect : simpl never.

(** Split on the first test the evaluation is stuck at. *)
Ltac split_test :=
  match goal with
  | |- context [if ?b then _ else _] => destruct b eqn:?
  | |- context [match ?x with Some _ => _ | None => _ end] => destruct x eqn:?
  | |- context [match ?x with PNone => _ | _ => _ end] => destruct x eqn:?
  | |- context [dict_update ?d ?o] => destruct (dict_update d o) eqn:?
  end.

Ltac walk :=
  run_handler;
  repeat (rewrite ?broadcast_message_eq; mred; simpl; try split_test).

Lemma dispatch_same_surroundings (now : string) (message : text) (s : studio) :
  same_surroundings s (snd (dispatch now message s)).
Proof.
  unfold same_surroundings.
  destruct message as [v|raw]; [destruct v|]; walk.
  all: repeat split; try reflexivity; auto.
Qed.

(** [handle_message] is its body when that returns, and the body's final
    state with one more log line when it raises. *)
Lemma handle_message_eq (ws : websocket) (now : string) (message : text)
    (s : studio) :
  handle_message ws now message s
  = match dispatch now message s with
    | (Returns _, st) => (Returns tt, st)
    | (Raises e, st) => (Returns tt, with_logged (logged st ++ [error_entry e]) st)
    end.
Proof.
  unfold handle_message, error_entry. mred.
  destruct (dispatch now message s) as [[[]|e] st]; [reflexivity|].
  unfold is_Exception. now destruct (is_JSONDecodeError e).
Qed.

Lemma handle_message_returns (ws : websocket) (now : string) (message : text)
    (s : studio) :
  handle_message ws now message s
  = (Returns tt, snd (handle_message ws now message s)).
Proof.
  rewrite handle_message_eq.
  now destruct (dispatch now message s) as [[[]|e] st].
Qed.

Lemma handle_message_same_surroundings (ws : websocket) (now : string)
    (message : text) (s : studio) :
  same_surroundings s (snd (handle_message ws now message s)).
Proof.
  rewrite handle_message_eq.
  pose proof (dispatch_same_surroundings now message s) as H.
  destruct (dispatch now message s) as [[[]|e] st]; simpl in *; exact H.
Qed.

Lemma for_each_handle_message (ws : websocket) (inbound : list (string * text))
    (s : studio) :
  for_each inbound (fun m => handle_message ws (fst m) (snd m)) s
  = (Returns tt, handle_all ws inbound s).
Proof.
  unfold handle_all. revert s.
  induction inbound as [|m inbound IH]; intro s; simpl; [reflexivity|].
  mred. rewrite handle_message_returns. apply IH.
Qed.

(** C9. Whatever the frame, [handle_message] returns normally: an
    exception raised while the frame is handled is caught and leaves one
    ERROR line in the log.  Handling closes no connection, and the sender
    stays in the client list as long as its transport is open.  A failing
    frame does not stop the ones after it: the receive loop handles every
    frame it is given. *)
Theorem handle_message_never_raises
    (ws : websocket) (now : string) (message : text) (s : studio)
    (inbound : list (string * text)) :
  (exists s',
     handle_message ws now message s = (Returns tt, s')
     /\ closed s' = closed s
     /\ (In ws (websocket_clients s) /\ mem ws (closed s) = false ->
         In ws (websocket_clients s'))
     /\ (forall e st, dispatch now message s = (Raises e, st) ->
         s' = with_logged (logged st ++ [error_entry e]) st))
  /\ for_each inbound (fun m => handle_message ws (fst m) (snd m)) s
     = (Returns tt, handle_all ws inbound s).
Proof.
  split; [|apply for_each_handle_message].
  exists (snd (handle_message ws now message s)).
  destruct (handle_message_same_surroundings ws now message s)
    as (Hc & _ & _ & _ & _ & Hl).
  repeat split.
  - apply handle_message_returns.
  - exact Hc.
  - intros [Hin Hopen]. destruct Hl as [-> | ->]; [exact Hin|].
    apply filter_In. split; [exact Hin|]. unfold is_open. now rewrite Hopen.
  - intros e st H. rewrite handle_message_eq, H. reflexivity.
Qed.

(* ================================================================= *)
(** ** Decoding *)

Lemma added_log_app (s s' : studio) (new : list (level * log_message)) :
  logged s' = logged s ++ new -> added_log s s' = new.
Proof.
  unfold added_log. intros ->.
  induction (logged s) as [|x l IH]; simpl; [reflexivity | exact IH].
Qed.

Lemma update_from_pairs_error (d d' : pydict) (items : list pyval) (e : exn) :
  update_from_pairs d items = (d', Some e) -> is_JSONDecodeError e = false.
Proof.
  revert d. induction items as [|item rest IH]; intros d H; simpl in H.
  - discriminate.
  - destruct (py_iter item) as [[|a [|v [|x l]]]|];
      try (injection H as _ <-; reflexivity).
    destruct (hash_key a); [eauto | injection H as _ <-; reflexivity].
Qed.

Lemma dict_update_error (d d' : pydict) (other : pyval) (e : exn) :
  dict_update d other = (d', Some e) -> is_JSONDecodeError e = false.
Proof.
  unfold dict_update.
  destruct other; simpl; intro H;
    try (injection H as _ <-; reflexivity);
    try discriminate;
    eauto using update_from_pairs_error.
Qed.

(** Handling decodable text writes no "Error parsing message". *)
Lemma json_is_not_a_parse_error (ws : websocket) (now : string) (v : pyval)
    (s : studio) :
  exists new,
    logged (snd (handle_message ws now (Json v) s)) = logged s ++ new
    /\ forall e, ~ In (ERROR, Error_parsing_message e) new.
Proof.
  destruct v; walk.
  all: try match goal with
       | H : dict_update _ _ = (_, Some _) |- _ =>
           apply dict_update_error in H; congruence
       end.
  all: first
    [ exists []; split; [now rewrite app_nil_r | intros ? []]
    | eexists; split;
      [ reflexivity | intros ? [H|[]]; discriminate H ]
    | eexists; split;
      [ rewrite <- app_assoc; reflexivity
      | intros ? [H|[H|[]]]; discriminate H ] ].
Qed.

(** C4, as stated, fails: the frame [{}] is well-formed and has no
    [type], yet handling it does not take the decode-error path (it is
    logged as an unknown message type). *)
Lemma missing_type_is_not_a_decode_error :
  ~ (decode_fails 1 "2025-01-01T00:00:00" (Json (PDict [])) (init None)
     <-> (exists raw, Json (PDict []) = Invalid raw)
         \/ type_absent (Json (PDict []))).
Proof.
  intros [_ H].
  destruct H as [e He].
  - right. exists []. split; reflexivity.
  - vm_compute in He. destruct He as [He|[]]. discriminate He.
Qed.

(** C4, amended. Decoding fails exactly when the text is not well-formed
    JSON.  A well-formed object whose [type] is absent or is none of the
    five known types is not a decode error: it is dropped at dispatch
    with the warning "Unknown message type" (naming [None] when the
    field is absent) and nothing else changes. *)
Theorem decode_fails_iff_not_json
    (ws : websocket) (now : string) (message : text) (s : studio) :
  (decode_fails ws now message s <-> json_loads message = Raises JSONDecodeError)
  /\ (forall d, message = Json (PDict d) ->
        recognized (dict_get d "type") = false ->
        handle_message ws now message s
        = (Returns tt,
           with_logged
             (logged s ++ [(WARNING, Unknown_message_type (dict_get d "type"))])
             s))
  /\ (forall d, message = Json (PDict d) ->
        dict_lookup (HStr "type") d = None ->
        dict_get d "type" = PNone /\ recognized (dict_get d "type") = false).
Proof.
  split; [|split].
  - destruct message as [v|raw]; simpl.
    + split; [|discriminate].
      intros [e He]. exfalso.
      destruct (json_is_not_a_parse_error ws now v s) as (new & Hnew & Hclean).
      rewrite (@added_log_app _ _ _ Hnew) in He. exact (Hclean e He).
    + split; [reflexivity|]. intros _. exists JSONDecodeError.
      rewrite (@added_log_app s _ [(ERROR, Error_parsing_message JSONDecodeError)]);
        [now left | reflexivity].
  - intros d -> Hr. unfold recognized in Hr.
    repeat (apply orb_false_iff in Hr as [Hr ?]).
    run_handler.
    repeat match goal with H : str_eq _ _ = false |- _ => rewrite H; clear H end.
    reflexivity.
  - intros d _ H. unfold dict_get. rewrite H. split; reflexivity.
Qed.

(* ================================================================= *)
(** ** Updates and deletes of an id the registry does not hold *)

(** Settle the chain of type tests of [dispatch] from the one that holds. *)
Ltac settle_type H :=
  let E := fresh "E" in
  pose proof (str_eq_true _ _ H) as E;
  run_handler; rewrite E; unfold str_eq; simpl.

Lemma absent_id_no_op (ws : websocket) (now : string) (d : pydict) (s : studio) :
  is_update_or_delete d ->
  absent_id (dict_get d "componentId") s ->
  exists s',
    handle_message ws now (Json (PDict d)) s = (Returns tt, s')
    /\ with_logged (logged s) s' = s
    /\ (hash_key (dict_get d "componentId") <> None -> s' = s).
Proof.
  unfold absent_id. intros [Ht|Ht] Habs; settle_type Ht.
  all: destruct (hash_key (dict_get d "componentId")) as [k|] eqn:Hk; mred.
  all: try (rewrite (Habs k eq_refl)).
  all: eexists; split; [reflexivity|]; split;
         [ destruct s; reflexivity
         | intro Hn; first [reflexivity | congruence] ].
Qed.

Lemma absent_after_delete (ws : websocket) (now : string) (d : pydict)
    (s : studio) :
  str_eq (dict_get d "type") "ui.component.delete" = true ->
  absent_id (dict_get d "componentId") (snd (handle_message ws now (Json (PDict d)) s)).
Proof.
  unfold absent_id. intros Ht k Hk. settle_type Ht. rewrite Hk. mred.
  destruct (dict_mem k (components s)) eqn:Hm; mred.
  - rewrite Hm. rewrite broadcast_message_eq. simpl.
    unfold dict_mem. now rewrite dict_lookup_remove_eq.
  - simpl. exact Hm.
Qed.

(** C5. A [ui.component.update] or [ui.component.delete] whose
    [componentId] is not in the registry changes nothing: the message is
    handled without error, the registry, the client list and what has
    been delivered are as before (nothing is broadcast, nothing is sent
    back), and for a hashable id not even the log changes.  After a
    delete the id is absent, so a second delete of it is such a no-op. *)
Theorem unknown_id_is_a_silent_no_op
    (ws : websocket) (now : string) (d : pydict) (s : studio) :
  is_update_or_delete d ->
  (absent_id (dict_get d "componentId") s ->
   exists s',
     handle_message ws now (Json (PDict d)) s = (Returns tt, s')
     /\ components s' = components s
     /\ delivered s' = delivered s
     /\ websocket_clients s' = websocket_clients s
     /\ (hash_key (dict_get d "componentId") <> None -> s' = s))
  /\ (str_eq (dict_get d "type") "ui.component.delete" = true ->
      forall now',
      let s1 := snd (handle_message ws now (Json (PDict d)) s) in
      exists s2,
        handle_message ws now' (Json (PDict d)) s1 = (Returns tt, s2)
        /\ components s2 = components s1
        /\ delivered s2 = delivered s1
        /\ websocket_clients s2 = websocket_clients s1
        /\ (hash_key (dict_get d "componentId") <> None -> s2 = s1)).
Proof.
  intro Hud.
  assert (G : forall t st, absent_id (dict_get d "componentId") st ->
            exists s',
              handle_message ws t (Json (PDict d)) st = (Returns tt, s')
              /\ components s' = components st
              /\ delivered s' = delivered st
              /\ websocket_clients s' = websocket_clients st
              /\ (hash_key (dict_get d "componentId") <> None -> s' = st)).
  { intros t st Habs.
    destruct (absent_id_no_op ws t Hud Habs) as (s' & Heq & Hlog & Hsame).
    exists s'. split; [exact Heq|].
    repeat split; [rewrite <- Hlog; now destruct s' ..| exact Hsame]. }
  split.
  - apply G.
  - intros Ht now' s1. apply G. now apply absent_after_delete.
Qed.

Lemma unknown_id_is_a_silent_no_op_witness :
  let d := [ (HStr "type", PStr "ui.component.delete");
             (HStr "componentId", PStr "ghost") ] in
  handle_message 1 "2025-01-01T00:00:00" (Json (PDict d)) (init None)
  = (Returns tt, init None).
Proof.
  intro d.
  destruct (unknown_id_is_a_silent_no_op 1 "2025-01-01T00:00:00" (d:=d) (init None))
    as [H _].
  - right. reflexivity.
  - destruct H as (s' & Heq & _ & _ & _ & Hs).
    + intros k Hk. vm_compute in Hk. injection Hk as <-. reflexivity.
    + rewrite Heq. f_equal. apply Hs. discriminate.
Defined.

(* ================================================================= *)
(** ** The registry *)

(** C1 (the code departs from it). After a create with [props] [{}] and
    an update of the same id with [{"k": v}], the stored component still
    has the empty [props]; [k] sits beside [id] and [props], at the top
    of the component. *)
Theorem update_merges_beside_props
    (ws : websocket) (t1 t2 : string) (v : pyval) :
  let created := PDict [ (HStr "id", PStr "c1"); (HStr "props", PDict []) ] in
  let s2 := handle_sequence
              [ (ws, t1, create_message created);
                (ws, t2, update_message (PStr "c1") (PDict [(HStr "k", v)])) ]
              (init None) in
  components s2
  = [ (HStr "c1",
       PDict [ (HStr "id", PStr "c1");
               (HStr "props", PDict []);
               (HStr "k", v) ]) ]
  /\ (forall c, dict_lookup (HStr "c1") (components s2) = Some (PDict c) ->
        dict_get c "props" = PDict [] /\ dict_get c "k" = v).
Proof.
  split; [reflexivity|].
  intros c H. vm_compute in H. injection H as <-. split; reflexivity.
Qed.

(** C2, as stated, fails: a create whose component carries only a
    [componentId] is filed under that, and has no [id] at all. *)
Lemma component_without_id_is_stored :
  ~ keyed_by_id
      (components
         (handle_sequence
            [ (1, "2025-01-01T00:00:00",
               create_message (PDict [(HStr "componentId", PStr "x")])) ]
            (init None))).
Proof.
  intro H.
  destruct (H (HStr "x") (PDict [(HStr "componentId", PStr "x")]) eq_refl)
    as (c & Hc & Ht & _).
  injection Hc as <-. vm_compute in Ht. discriminate Ht.
Qed.

Lemma keyed_store (k : hkey) (c : pydict) (components : pydict) :
  keyed_by_registered_id components ->
  truthy (registered_id c) = true ->
  hash_key (registered_id c) = Some k ->
  keyed_by_registered_id (dict_store k (PDict c) components).
Proof.
  intros Hinv Ht Hk k' v. rewrite dict_lookup_store.
  destruct (hkey_eqb k' k) eqn:E.
  - apply hkey_eqb_eq in E. subst k'. intros [= <-]. now exists c.
  - apply Hinv.
Qed.

Lemma keyed_remove (k : hkey) (components : pydict) :
  keyed_by_registered_id components ->
  keyed_by_registered_id (dict_remove k components).
Proof.
  intros Hinv k' v. destruct (hkey_eq_dec k k') as [<-|Hne].
  - now rewrite dict_lookup_remove_eq.
  - rewrite dict_lookup_remove_ne by exact Hne. apply Hinv.
Qed.

Lemma dict_get_update (key : string) (props : pyval) (c : pydict) :
  writes props key = false ->
  dict_get (fst (dict_update c props)) key = dict_get c key.
Proof.
  unfold writes, dict_mem, dict_get. intro H.
  rewrite dict_lookup_update.
  now destruct (dict_lookup (HStr key) (fst (dict_update [] props))).
Qed.

Lemma components_broadcast_effect (message : pyval) (s : studio) :
  components (broadcast_effect message s) = components s.
Proof. reflexivity. Qed.

Ltac solve_registered :=
  unfold registered_id, py_or;
  repeat match goal with H : truthy _ = _ |- _ => rewrite H end;
  first [assumption | reflexivity].

Lemma registered_id_update (props : pyval) (c : pydict) :
  negb (writes props "id") && negb (writes props "componentId") = true ->
  registered_id (fst (dict_update c props)) = registered_id c.
Proof.
  intro H. apply andb_true_iff in H as [Hi Hc].
  apply negb_true_iff in Hi, Hc.
  unfold registered_id. now rewrite !dict_get_update.
Qed.

Lemma handle_message_keeps_keys (ws : websocket) (now : string)
    (message : text) (s : studio) :
  keyed_by_registered_id (components s) ->
  leaves_id_alone message = true ->
  keyed_by_registered_id (components (snd (handle_message ws now message s))).
Proof.
  intros Hinv Hok.
  destruct message as [v|raw]; [destruct v|]; try exact Hinv.
  unfold leaves_id_alone in Hok.
  walk; rewrite ?components_broadcast_effect; simpl; try exact Hinv.
  all: try (apply keyed_remove; exact Hinv).
  all: try (apply keyed_store; [exact Hinv | solve_registered ..]).
  all: match goal with
       | Hl : dict_lookup ?h (components _) = Some (PDict ?c),
         Hu : dict_update ?c ?props = (?c', _) |- _ =>
           destruct (Hinv h (PDict c) Hl) as (c0 & Hc0 & Htr & Hk);
           injection Hc0 as <-;
           replace c' with (fst (dict_update c props)) by (now rewrite Hu);
           apply keyed_store;
             [ exact Hinv
             | now rewrite registered_id_update
             | now rewrite registered_id_update ]
       end.
Qed.

(** C2, amended. However many frames are handled, from whichever
    connections, every entry of the registry is a component filed under
    its registered id, which is the component's [id] or, when that is
    missing or falsy, its [componentId], and is never empty.  This is
    shown for the sequences in which no [ui.component.update] stores an
    [id] or a [componentId] through its props. *)
Theorem registry_keyed_by_registered_id
    (config : option pydict) (inbound : list (websocket * string * text)) :
  Forall (fun m => leaves_id_alone (snd m) = true) inbound ->
  keyed_by_registered_id (components (handle_sequence inbound (init config))).
Proof.
  assert (G : forall s, keyed_by_registered_id (components s) ->
            Forall (fun m => leaves_id_alone (snd m) = true) inbound ->
            keyed_by_registered_id (components (handle_sequence inbound s))).
  { unfold handle_sequence.
    induction inbound as [|[[ws now] message] inbound IH]; intros s Hinv Hall.
    - exact Hinv.
    - simpl. inversion Hall as [|m l Hm Hl]; subst.
      apply IH; [|exact Hl]. now apply handle_message_keeps_keys. }
  apply G. intros k v H. discriminate H.
Qed.

Lemma registry_keyed_by_registered_id_witness :
  keyed_by_registered_id
    (components
       (handle_sequence
          [ (1, "2025-01-01T00:00:00",
             create_message (PDict [(HStr "componentId", PStr "x")]));
            (2, "2025-01-01T00:00:01",
             update_message (PStr "x") (PDict [(HStr "label", PStr "Stop")])) ]
          (init None))).
Proof.
  apply (registry_keyed_by_registered_id None).
  repeat constructor.
Defined.

(* ================================================================= *)
(** ** Lifecycle *)

Lemma for_each_close (clients : list websocket) (s : studio) :
  for_each clients close s = (Returns tt, close_all clients s).
Proof.
  unfold close_all. revert s.
  induction clients as [|c clients IH]; intro s; simpl; [reflexivity|].
  unfold close at 1. mred. apply IH.
Qed.

Lemma components_connection_lost (c : websocket) (s : studio) :
  components (connection_lost c s) = components s.
Proof. unfold connection_lost. now destruct (mem c (closed s)). Qed.

Lemma components_close_all (clients : list websocket) (s : studio) :
  components (close_all clients s) = components s.
Proof.
  unfold close_all. revert s.
  induction clients as [|c clients IH]; intro s; simpl; [reflexivity|].
  now rewrite IH, components_connection_lost.
Qed.

Lemma is_running_close_all (clients : list websocket) (s : studio) :
  is_running (close_all clients s) = is_running s.
Proof.
  unfold close_all. revert s.
  induction clients as [|c clients IH]; intro s; simpl; [reflexivity|].
  rewrite IH. unfold connection_lost. now destruct (mem c (closed s)).
Qed.

Lemma stop_running (s : studio) :
  is_running s = true ->
  stop s
  = (Returns tt,
     with_logged
       (logged (close_all (websocket_clients s) (with_is_running false s))
        ++ [(INFO, Dynamic_Studio_stopped)])
       (with_websocket_clients []
          (close_all (websocket_clients s) (with_is_running false s)))).
Proof.
  intro H. unfold stop. mred. rewrite H. simpl.
  now rewrite for_each_close.
Qed.

(** C6, as stated, fails: a component created while the server runs is
    still in the registry after [stop]. *)
Lemma stop_keeps_the_registry :
  let s1 := snd (start None (init None)) in
  let s2 := handle_sequence
              [(1, "2025-01-01T00:00:00", create_message a_button)] s1 in
  let s3 := snd (stop s2) in
  is_running s2 = true
  /\ is_running s3 = false
  /\ components s3 <> [].
Proof. repeat split. discriminate. Qed.

Lemma only_connections_refl (s : studio) : only_connections s s.
Proof. repeat split. Qed.

Lemma only_connections_trans (a b c : studio) :
  only_connections a b -> only_connections b c -> only_connections a c.
Proof.
  unfold only_connections.
  intros (H1 & H2 & H3 & H4 & H5 & H6) (G1 & G2 & G3 & G4 & G5 & G6).
  repeat split; congruence.
Qed.

Lemma connection_lost_only_connections (c : websocket) (s : studio) :
  only_connections s (connection_lost c s).
Proof.
  unfold connection_lost. destruct (mem c (closed s)); repeat split.
Qed.

Lemma happen_only_connections (e : meanwhile) (s : studio) :
  only_connections s (happen e s).
Proof.
  destruct e as [ws|ws|ws]; simpl.
  - repeat split.
  - unfold handle_websocket_finally, clients_remove.
    cbv beta iota delta [bind gets modify raise].
    destruct (list_remove ws (websocket_clients s)); repeat split.
  - apply connection_lost_only_connections.
Qed.

Lemma happen_all_only_connections (events : list meanwhile) (s : studio) :
  only_connections s (happen_all events s).
Proof.
  unfold happen_all. revert s.
  induction events as [|e events IH]; intro s; simpl.
  - apply only_connections_refl.
  - eapply only_connections_trans; [apply happen_only_connections | apply IH].
Qed.

Lemma close_all_only_connections (clients : list websocket) (s : studio) :
  only_connections s (close_all clients s).
Proof.
  unfold close_all. revert s.
  induction clients as [|c clients IH]; intro s; simpl.
  - apply only_connections_refl.
  - eapply only_connections_trans;
      [apply connection_lost_only_connections | apply IH].
Qed.

(** The loop of [stop] always comes to its end, whatever is scheduled,
    and does nothing but close connections. *)
Lemma close_clients_among_returns (schedule : list (list meanwhile)) (i : nat)
    (s : studio) :
  exists s',
    close_clients_among schedule i s = (Returns tt, s')
    /\ only_connections s s'.
Proof.
  revert i s. induction schedule as [|events schedule IH]; intros i s; simpl.
  - cbv beta iota delta [bind gets]. rewrite for_each_close.
    eexists. split; [reflexivity | apply close_all_only_connections].
  - cbv beta iota delta [bind gets ret].
    destruct (nth_error (websocket_clients s) i) as [client|].
    + unfold close at 1. cbv beta iota delta [modify].
      fold (connection_lost client s).
      destruct (IH (S i) (happen_all events (connection_lost client s)))
        as (s' & -> & H).
      exists s'. split; [reflexivity|].
      eapply only_connections_trans; [apply connection_lost_only_connections|].
      eapply only_connections_trans; [apply happen_all_only_connections|].
      exact H.
    + exists s. split; [reflexivity | apply only_connections_refl].
Qed.

Lemma stop_among_running (schedule : list (list meanwhile)) (s : studio) :
  is_running s = true ->
  exists s2,
    stop_among schedule s
    = (Returns tt,
       with_logged (logged s2 ++ [(INFO, Dynamic_Studio_stopped)])
         (with_websocket_clients [] s2))
    /\ only_connections (with_is_running false s) s2
    /\ close_clients_among schedule 0 (with_is_running false s)
       = (Returns tt, s2).
Proof.
  intro H. unfold stop_among.
  cbv beta iota delta [bind gets modify ret logger]. rewrite H. simpl.
  destruct (close_clients_among_returns schedule 0 (with_is_running false s))
    as (s2 & -> & Ho).
  exists s2. repeat split; apply Ho.
Qed.

Lemma stop_among_nothing (s : studio) : stop_among [] s = stop s.
Proof. reflexivity. Qed.

(** C6, amended. The registry is empty when the [DynamicStudio] object
    is made, and it is not cleared when the server stops.  Neither
    [start] nor [stop] touches it, whether or not the bind succeeds and
    whatever connections come and go while [stop] awaits: stopping a
    running server returns with the client list emptied and
    [is_running] unset, and leaves the components where they are. *)
Theorem registry_survives_the_lifecycle
    (config : option pydict) (bind_error : option exn)
    (schedule : list (list meanwhile)) (s : studio) :
  components (init config) = []
  /\ components (snd (start bind_error s)) = components s
  /\ components (snd (stop s)) = components s
  /\ (is_running s = true ->
      fst (stop s) = Returns tt
      /\ websocket_clients (snd (stop s)) = []
      /\ is_running (snd (stop s)) = false)
  /\ components (snd (stop_among schedule s)) = components s
  /\ (is_running s = true ->
      fst (stop_among schedule s) = Returns tt
      /\ websocket_clients (snd (stop_among schedule s)) = []
      /\ is_running (snd (stop_among schedule s)) = false).
Proof.
  assert (G : forall sched,
            components (snd (stop_among sched s)) = components s
            /\ (is_running s = true ->
                fst (stop_among sched s) = Returns tt
                /\ websocket_clients (snd (stop_among sched s)) = []
                /\ is_running (snd (stop_among sched s)) = false)).
  { intro sched. destruct (is_running s) eqn:H.
    - destruct (stop_among_running sched s H)
        as (s2 & -> & (Hc & Hr & _) & _).
      simpl. split; [exact Hc|]. intros _. repeat split. exact Hr.
    - split; [|discriminate].
      unfold stop_among. cbv beta iota delta [bind gets ret]. now rewrite H. }
  split; [reflexivity|]. split; [|split; [|split]].
  - unfold start, py_getitem, websockets_serve. mred.
    destruct (is_running s); [reflexivity|]. simpl.
    repeat (split_test; mred; simpl; try reflexivity).
  - rewrite <- stop_among_nothing. apply G.
  - rewrite <- stop_among_nothing. apply G.
  - apply G.
Qed.

(** C7 (the code departs from it). When the bind fails, [start] raises
    the error with [is_running] already set and nothing listening; a
    second [start], whose bind would succeed, then only warns that the
    studio is already running and binds nothing. *)
Theorem failed_bind_leaves_is_running_set (e : exn) :
  let s0 := init None in
  let s1 := snd (start (Some e) s0) in
  let s2 := snd (start None s1) in
  fst (start (Some e) s0) = Raises e
  /\ is_running s1 = true
  /\ serving s1 = false
  /\ fst (start None s1) = Returns tt
  /\ serving s2 = false
  /\ logged s2
     = logged s1 ++ [(WARNING, Studio_is_already_running)].
Proof. repeat split. Qed.

(** C8 (the code departs from it). Removing a connection that is no
    longer in the list raises [ValueError].  It happens on the close
    path of a handler whose client a broadcast has pruned: with two
    connections, when the first one's transport is down while a frame of
    the second is broadcast; with one connection, when its own frame is
    handled after its transport went down; and after [stop] has emptied
    the list. *)
Theorem remove_of_a_pruned_client_raises :
  let now := "2025-01-01T00:00:00" in
  let s1 := snd (handle_websocket_enter 1 (init None)) in
  let s2 := snd (handle_websocket_enter 2 s1) in
  let s3 := connection_lost 1 s2 in
  let s4 := snd (handle_message 2 now (create_message a_button) s3) in
  let s5 := snd (handle_websocket_loop 1 [] (Some ConnectionClosed) s4) in
  websocket_clients s3 = [1; 2]
  /\ websocket_clients s5 = [2]
  /\ fst (handle_websocket_finally 1 s5) = Raises ValueError
  /\ fst (handle_websocket 1 [(now, create_message a_button)] None
            (connection_lost 1 (init None)))
     = Raises ValueError
  /\ fst (handle_websocket_finally 1
            (snd (stop (snd (start None s1)))))
     = Raises ValueError.
Proof. repeat split. Qed.


(* ================================================================= *)
(** ** Further properties of the handlers *)

Lemma create_eq (ws : websocket) (now : string) (d c : pydict) (k : hkey)
    (s : studio) :
  creates d c k ->
  handle_message ws now (Json (PDict d)) s
  = (Returns tt,
     log_line INFO (Created_component (registered_id c))
       (broadcast_effect
          (event "ui.component.create" [(HStr "component", PDict c)] now)
          (with_components (dict_store k (PDict c) (components s)) s))).
Proof.
  intros (Ht & Hc & Htr & Hk). settle_type Ht. rewrite Hc. mred.
  unfold registered_id, py_or in *.
  destruct (truthy (dict_get c "id")); mred; rewrite Htr, Hk; mred;
    now rewrite broadcast_message_eq.
Qed.

Lemma upsert_eq (ws : websocket) (now : string) (d c : pydict) (k : hkey)
    (s : studio) :
  upserts d c k ->
  handle_message ws now (Json (PDict d)) s
  = (Returns tt,
     log_line INFO (Updated_UI_component (dict_get c "id"))
       (broadcast_effect
          (event "ui.studio.update" [(HStr "component", PDict c)] now)
          (with_components (dict_store k (PDict c) (components s)) s))).
Proof.
  intros (Ht & Hc & Htr & Hk). settle_type Ht. rewrite Hc. mred.
  rewrite Htr, Hk. mred. now rewrite broadcast_message_eq.
Qed.

Lemma delete_eq (ws : websocket) (now : string) (d : pydict) (k : hkey)
    (s : studio) :
  deletes d k ->
  dict_mem k (components s) = true ->
  handle_message ws now (Json (PDict d)) s
  = (Returns tt,
     log_line INFO (Deleted_component (dict_get d "componentId"))
       (broadcast_effect
          (event "ui.component.delete"
             [(HStr "componentId", dict_get d "componentId")] now)
          (with_components (dict_remove k (components s)) s))).
Proof.
  intros (Ht & Hk) Hm. settle_type Ht. rewrite Hk. mred.
  rewrite Hm. mred. rewrite Hm. now rewrite broadcast_message_eq.
Qed.

Lemma update_eq (ws : websocket) (now : string) (d c p : pydict) (k : hkey)
    (s : studio) :
  updates d k ->
  dict_lookup k (components s) = Some (PDict c) ->
  dict_get d "props" = PDict p ->
  handle_message ws now (Json (PDict d)) s
  = (Returns tt,
     log_line INFO (Updated_component (dict_get d "componentId"))
       (broadcast_effect
          (event "ui.component.update"
             [ (HStr "componentId", dict_get d "componentId");
               (HStr "props", PDict p) ] now)
          (with_components
             (dict_store k (PDict (dict_merge c p)) (components s)) s))).
Proof.
  intros (Ht & Hk) Hl Hp. settle_type Ht. rewrite Hk, Hp. mred.
  unfold dict_mem. rewrite Hl. mred. rewrite Hl. unfold dict_update. mred.
  now rewrite broadcast_message_eq.
Qed.

Lemma lookup_store_other (k k' : hkey) (v : pyval) (d : pydict) :
  k' <> k -> dict_lookup k' (dict_store k v d) = dict_lookup k' d.
Proof. intro H. apply dict_lookup_store_ne. congruence. Qed.

Lemma to_open_clients_content (message : pyval) (s : studio)
    (c : websocket) (t : text) :
  In (c, t) (to_open_clients message s) -> t = json_dumps message.
Proof.
  unfold to_open_clients. intro H.
  apply in_map_iff in H as (c' & [= _ <-] & _). reflexivity.
Qed.

(** X1. On a [ui.component.create] whose component has a usable id,
    [handle_message] returns and the component is filed, exactly as
    received, under that id; no other entry changes; and whatever frame
    is sent while it is handled is the component back, with the
    timestamp. *)
Theorem create_then_lookup
    (ws : websocket) (now : string) (d c : pydict) (k : hkey) (s : studio) :
  creates d c k ->
  let s' := snd (handle_message ws now (Json (PDict d)) s) in
  fst (handle_message ws now (Json (PDict d)) s) = Returns tt
  /\ dict_lookup k (components s') = Some (PDict c)
  /\ (forall k', k' <> k ->
        dict_lookup k' (components s') = dict_lookup k' (components s))
  /\ exists sent,
       delivered s' = delivered s ++ sent
       /\ forall cl t, In (cl, t) sent ->
            t = json_dumps
                  (event "ui.component.create" [(HStr "component", PDict c)] now).
Proof.
  intros H s'. subst s'. rewrite (create_eq ws now s H).
  split; [reflexivity|]. split; [apply dict_lookup_store_eq|]. split.
  - intros k' Hne. now apply lookup_store_other.
  - eexists. split; [reflexivity|]. intros cl t. apply to_open_clients_content.
Qed.

Lemma create_then_lookup_witness :
  let s' := snd (handle_message 1 "2025-01-01T00:00:00"
                   (create_message a_button) (init None)) in
  dict_lookup (HStr "c1") (components s') = Some a_button.
Proof.
  apply (create_then_lookup 1 "2025-01-01T00:00:00"
           (d := [ (HStr "type", PStr "ui.component.create");
                   (HStr "component", a_button) ])
           (k := HStr "c1") (init None)).
  repeat split.
Defined.

(** X2. On a [ui.studio.update], [handle_message] returns and the
    component is filed under the component's own [id] (a [componentId]
    plays no part here), replacing whatever was there; no other entry
    changes; and whatever frame is sent while it is handled is the
    component with the timestamp. *)
Theorem studio_update_then_lookup
    (ws : websocket) (now : string) (d c : pydict) (k : hkey) (s : studio) :
  upserts d c k ->
  let s' := snd (handle_message ws now (Json (PDict d)) s) in
  fst (handle_message ws now (Json (PDict d)) s) = Returns tt
  /\ dict_lookup k (components s') = Some (PDict c)
  /\ (forall k', k' <> k ->
        dict_lookup k' (components s') = dict_lookup k' (components s))
  /\ exists sent,
       delivered s' = delivered s ++ sent
       /\ forall cl t, In (cl, t) sent ->
            t = json_dumps
                  (event "ui.studio.update" [(HStr "component", PDict c)] now).
Proof.
  intros H s'. subst s'. rewrite (upsert_eq ws now s H).
  split; [reflexivity|]. split; [apply dict_lookup_store_eq|]. split.
  - intros k' Hne. now apply lookup_store_other.
  - eexists. split; [reflexivity|]. intros cl t. apply to_open_clients_content.
Qed.

Lemma studio_update_then_lookup_witness :
  let s' := snd (handle_message 1 "2025-01-01T00:00:00"
                   (Json (PDict [ (HStr "type", PStr "ui.studio.update");
                                  (HStr "component", a_button) ]))
                   (init None)) in
  dict_lookup (HStr "c1") (components s') = Some a_button.
Proof.
  apply (studio_update_then_lookup 1 "2025-01-01T00:00:00"
           (d := [ (HStr "type", PStr "ui.studio.update");
                   (HStr "component", a_button) ])
           (k := HStr "c1") (init None)).
  repeat split.
Defined.

(** X3. A component without a usable id is dropped without a trace: a
    [ui.studio.update] whose component has no truthy [id] (even if it has
    a [componentId]), and a [ui.component.create] whose component has
    neither, leave the whole state, log included, as it was. *)
Theorem component_without_usable_id_is_dropped
    (ws : websocket) (now : string) (d c : pydict) (s : studio) :
  dict_get d "component" = PDict c ->
  (str_eq (dict_get d "type") "ui.studio.update" = true
   /\ truthy (dict_get c "id") = false)
  \/ (str_eq (dict_get d "type") "ui.component.create" = true
      /\ truthy (registered_id c) = false) ->
  handle_message ws now (Json (PDict d)) s = (Returns tt, s).
Proof.
  intros Hc [[Ht Hid]|[Ht Hid]]; settle_type Ht; rewrite Hc; mred.
  - now rewrite Hid.
  - unfold registered_id, py_or in Hid.
    destruct (truthy (dict_get c "id")) eqn:Ei; mred; now rewrite Hid.
Qed.

Lemma component_without_usable_id_is_dropped_witness :
  handle_message 1 "2025-01-01T00:00:00"
    (Json (PDict [ (HStr "type", PStr "ui.studio.update");
                   (HStr "component", PDict [(HStr "componentId", PStr "x")]) ]))
    (init None)
  = (Returns tt, init None).
Proof.
  apply (@component_without_usable_id_is_dropped 1 "2025-01-01T00:00:00"
           [ (HStr "type", PStr "ui.studio.update");
             (HStr "component", PDict [(HStr "componentId", PStr "x")]) ]
           [(HStr "componentId", PStr "x")] (init None)).
  - reflexivity.
  - left. split; reflexivity.
Defined.

(** X4. Creating under an id that is taken replaces the stored component
    wholesale (nothing of the first one is merged in) and keeps the
    entry's place: the registry has the same keys in the same order as
    after the first create.  Ids are the same when Python's [==] says so. *)
Theorem second_create_replaces_the_first
    (ws1 ws2 : websocket) (t1 t2 : string) (d1 c1 d2 c2 : pydict) (k : hkey)
    (s : studio) :
  creates d1 c1 k ->
  creates d2 c2 k ->
  let s1 := handle_sequence [(ws1, t1, Json (PDict d1))] s in
  let s2 := handle_sequence [(ws2, t2, Json (PDict d2))] s1 in
  dict_lookup k (components s1) = Some (PDict c1)
  /\ dict_lookup k (components s2) = Some (PDict c2)
  /\ map fst (components s2) = map fst (components s1)
  /\ (forall k', k' <> k ->
        dict_lookup k' (components s2) = dict_lookup k' (components s)).
Proof.
  intros H1 H2 s1 s2. subst s1 s2. unfold handle_sequence. simpl.
  rewrite (create_eq ws1 t1 s H1). simpl.
  rewrite (create_eq ws2 t2 _ H2). simpl.
  rewrite ?components_broadcast_effect. simpl.
  repeat split.
  - apply dict_lookup_store_eq.
  - apply dict_lookup_store_eq.
  - apply dict_store_keys. unfold dict_mem. now rewrite dict_lookup_store_eq.
  - intros k' Hne. now rewrite !lookup_store_other.
Qed.

Lemma second_create_replaces_the_first_witness :
  let d1 := [ (HStr "type", PStr "ui.component.create");
              (HStr "component", PDict [(HStr "id", PInt 1);
                                        (HStr "kind", PStr "card")]) ] in
  let d2 := [ (HStr "type", PStr "ui.component.create");
              (HStr "component", PDict [(HStr "id", PBool true)]) ] in
  let s1 := handle_sequence [(1, "2025-01-01T00:00:00", Json (PDict d1))]
              (init None) in
  let s2 := handle_sequence [(2, "2025-01-01T00:00:01", Json (PDict d2))] s1 in
  dict_lookup (HNum (NInt 1)) (components s2)
  = Some (PDict [(HStr "id", PBool true)]).
Proof.
  intros d1 d2.
  apply (@second_create_replaces_the_first 1 2
           "2025-01-01T00:00:00" "2025-01-01T00:00:01"
           d1 [(HStr "id", PInt 1); (HStr "kind", PStr "card")]
           d2 [(HStr "id", PBool true)] (HNum (NInt 1)) (init None));
    repeat split.
Defined.

(** X5. On the delete of an id the registry holds, [handle_message]
    returns and that entry, and no other, is removed; whatever frame is
    sent while it is handled is a [ui.component.delete] naming the id,
    with the timestamp. *)
Theorem delete_removes_and_announces
    (ws : websocket) (now : string) (d : pydict) (k : hkey) (s : studio) :
  deletes d k ->
  dict_mem k (components s) = true ->
  let s' := snd (handle_message ws now (Json (PDict d)) s) in
  fst (handle_message ws now (Json (PDict d)) s) = Returns tt
  /\ dict_lookup k (components s') = None
  /\ (forall k', k' <> k ->
        dict_lookup k' (components s') = dict_lookup k' (components s))
  /\ exists sent,
       delivered s' = delivered s ++ sent
       /\ forall cl t, In (cl, t) sent ->
            t = json_dumps
                  (event "ui.component.delete"
                     [(HStr "componentId", dict_get d "componentId")] now).
Proof.
  intros H Hm s'. subst s'. rewrite (delete_eq ws now s H Hm).
  split; [reflexivity|]. split; [apply dict_lookup_remove_eq|]. split.
  - intros k' Hne. apply dict_lookup_remove_ne. congruence.
  - eexists. split; [reflexivity|]. intros cl t. apply to_open_clients_content.
Qed.

Lemma delete_removes_and_announces_witness :
  let s := handle_sequence
             [(1, "2025-01-01T00:00:00", create_message a_button)] (init None) in
  let d := [ (HStr "type", PStr "ui.component.delete");
             (HStr "componentId", PStr "c1") ] in
  dict_lookup (HStr "c1")
    (components (snd (handle_message 2 "2025-01-01T00:00:01" (Json (PDict d)) s)))
  = None.
Proof.
  intros s d.
  apply (@delete_removes_and_announces 2 "2025-01-01T00:00:01"
           d (HStr "c1") s).
  - split; reflexivity.
  - reflexivity.
Defined.

(** X6. Create followed by delete undoes itself on the registry: when
    the id was not there before, the registry is afterwards exactly what
    it was, order included. *)
Theorem create_then_delete_restores
    (ws1 ws2 : websocket) (t1 t2 : string) (d1 c d2 : pydict) (k : hkey)
    (s : studio) :
  creates d1 c k ->
  deletes d2 k ->
  dict_mem k (components s) = false ->
  components
    (handle_sequence [(ws1, t1, Json (PDict d1)); (ws2, t2, Json (PDict d2))] s)
  = components s.
Proof.
  intros H1 H2 Hm. unfold handle_sequence. simpl.
  rewrite (create_eq ws1 t1 s H1). simpl.
  rewrite (delete_eq ws2 t2 _ H2).
  - simpl. rewrite ?components_broadcast_effect. simpl.
    apply dict_remove_store_fresh.
    unfold dict_mem in Hm. now destruct (dict_lookup k (components s)).
  - simpl. rewrite ?components_broadcast_effect. simpl.
    unfold dict_mem. now rewrite dict_lookup_store_eq.
Qed.

Lemma create_then_delete_restores_witness :
  components
    (handle_sequence
       [ (1, "2025-01-01T00:00:00", create_message a_button);
         (2, "2025-01-01T00:00:01",
          Json (PDict [ (HStr "type", PStr "ui.component.delete");
                        (HStr "componentId", PStr "c1") ])) ]
       (init None))
  = components (init None).
Proof.
  apply (@create_then_delete_restores 1 2
           "2025-01-01T00:00:00" "2025-01-01T00:00:01"
           [ (HStr "type", PStr "ui.component.create");
             (HStr "component", a_button) ]
           [ (HStr "id", PStr "c1");
             (HStr "kind", PStr "button");
             (HStr "props", PDict [(HStr "label", PStr "Go")]) ]
           [ (HStr "type", PStr "ui.component.delete");
             (HStr "componentId", PStr "c1") ]
           (HStr "c1") (init None)).
  - repeat split.
  - split; reflexivity.
  - reflexivity.
Defined.

(** X7. On a [ui.component.update] of an id the registry holds, with an
    object as props, [handle_message] returns and every key of the props
    is stored as a key of the stored component itself, overriding what
    was there; the component's other keys, the other entries and the
    order of the registry are untouched.  Whatever frame is sent while it
    is handled carries the id and the props, as received, with the
    timestamp. *)
Theorem update_merges_into_the_component
    (ws : websocket) (now : string) (d c p : pydict) (k : hkey) (s : studio) :
  updates d k ->
  dict_lookup k (components s) = Some (PDict c) ->
  dict_get d "props" = PDict p ->
  let s' := snd (handle_message ws now (Json (PDict d)) s) in
  fst (handle_message ws now (Json (PDict d)) s) = Returns tt
  /\ (exists c',
        dict_lookup k (components s') = Some (PDict c')
        /\ (forall key, dict_mem key p = true ->
              dict_lookup key c' = dict_lookup key (dict_merge [] p))
        /\ (forall key, dict_lookup key p = None ->
              dict_lookup key c' = dict_lookup key c))
  /\ (forall k', k' <> k ->
        dict_lookup k' (components s') = dict_lookup k' (components s))
  /\ map fst (components s') = map fst (components s)
  /\ exists sent,
       delivered s' = delivered s ++ sent
       /\ forall cl t, In (cl, t) sent ->
            t = json_dumps
                  (event "ui.component.update"
                     [ (HStr "componentId", dict_get d "componentId");
                       (HStr "props", PDict p) ] now).
Proof.
  intros H Hl Hp s'. subst s'. rewrite (update_eq ws now s H Hl Hp).
  split; [reflexivity|]. split; [|split; [|split]].
  - exists (dict_merge c p). split; [apply dict_lookup_store_eq|]. split.
    + intros key Hm. rewrite dict_lookup_merge.
      rewrite (dict_lookup_merge_last key p []).
      destruct (last_stored_some key p Hm) as [w ->]. reflexivity.
    + intros key Hn. rewrite dict_lookup_merge.
      rewrite (dict_lookup_merge_last key p []).
      now rewrite (last_stored_none key p Hn).
  - intros k' Hne. now apply lookup_store_other.
  - apply dict_store_keys. unfold dict_mem. now rewrite Hl.
  - eexists. split; [reflexivity|]. intros cl t. apply to_open_clients_content.
Qed.

Lemma update_merges_into_the_component_witness :
  let s := handle_sequence
             [(1, "2025-01-01T00:00:00", create_message a_button)] (init None) in
  let d := [ (HStr "type", PStr "ui.component.update");
             (HStr "componentId", PStr "c1");
             (HStr "props", PDict [(HStr "label", PStr "Stop")]) ] in
  map fst (components (snd (handle_message 2 "2025-01-01T00:00:01"
                              (Json (PDict d)) s)))
  = map fst (components s).
Proof.
  intros s d.
  apply (@update_merges_into_the_component 2 "2025-01-01T00:00:01" d
           [ (HStr "id", PStr "c1");
             (HStr "kind", PStr "button");
             (HStr "props", PDict [(HStr "label", PStr "Go")]) ]
           [(HStr "label", PStr "Stop")] (HStr "c1") s).
  - split; reflexivity.
  - reflexivity.
  - reflexivity.
Defined.

(** X8. A [ui.component.update] of an id the registry holds whose props
    are missing, or are null, a boolean or a number, changes nothing and
    is sent to nobody: the [TypeError] of [dict.update] is caught and
    leaves one ERROR line in the log. *)
Theorem update_without_props_changes_nothing
    (ws : websocket) (now : string) (d c : pydict) (k : hkey) (s : studio) :
  updates d k ->
  dict_lookup k (components s) = Some (PDict c) ->
  py_iter (dict_get d "props") = None ->
  handle_message ws now (Json (PDict d)) s
  = (Returns tt, log_line ERROR (Error_handling_message TypeError) s).
Proof.
  intros (Ht & Hk) Hl Hp. settle_type Ht. rewrite Hk. mred.
  unfold dict_mem. rewrite Hl. mred. rewrite Hl.
  unfold dict_update.
  destruct (dict_get d "props"); try discriminate Hp; simpl; mred; simpl.
  all: now rewrite (dict_store_same _ _ Hl); destruct s.
Qed.

Lemma update_without_props_changes_nothing_witness :
  let s := handle_sequence
             [(1, "2025-01-01T00:00:00", create_message a_button)] (init None) in
  let d := [ (HStr "type", PStr "ui.component.update");
             (HStr "componentId", PStr "c1") ] in
  handle_message 2 "2025-01-01T00:00:01" (Json (PDict d)) s
  = (Returns tt, log_line ERROR (Error_handling_message TypeError) s).
Proof.
  intros s d.
  apply (@update_without_props_changes_nothing 2 "2025-01-01T00:00:01" d
           [ (HStr "id", PStr "c1");
             (HStr "kind", PStr "button");
             (HStr "props", PDict [(HStr "label", PStr "Go")]) ]
           (HStr "c1") s).
  - split; reflexivity.
  - reflexivity.
  - reflexivity.
Defined.

(** X9. A frame that is well-formed JSON but not an object (a list, a
    string, a number, a boolean, null) is not treated as a decode error:
    reading its [type] raises [AttributeError], which is caught; one
    ERROR line "Error handling message" is logged and nothing else
    changes. *)
Theorem non_object_frame_is_logged
    (ws : websocket) (now : string) (v : pyval) (s : studio) :
  (forall d, v <> PDict d) ->
  handle_message ws now (Json v) s
  = (Returns tt, log_line ERROR (Error_handling_message AttributeError) s).
Proof.
  intro H. destruct v; try reflexivity. now destruct (H d).
Qed.

Lemma non_object_frame_is_logged_witness :
  handle_message 1 "2025-01-01T00:00:00" (Json (PList [PInt 1; PInt 2]))
    (init None)
  = (Returns tt,
     log_line ERROR (Error_handling_message AttributeError) (init None)).
Proof.
  apply (@non_object_frame_is_logged 1 "2025-01-01T00:00:00"
           (PList [PInt 1; PInt 2]) (init None)).
  intros d H. discriminate H.
Defined.

(** X10. A [ui.studio.update] or [ui.component.create] whose
    [component] is missing or is not an object is logged as an error
    ([AttributeError]) and changes nothing else: nothing is stored and
    nothing is broadcast. *)
Theorem component_that_is_no_object_is_logged
    (ws : websocket) (now : string) (d : pydict) (s : studio) :
  str_eq (dict_get d "type") "ui.studio.update" = true
  \/ str_eq (dict_get d "type") "ui.component.create" = true ->
  (forall c, dict_get d "component" <> PDict c) ->
  handle_message ws now (Json (PDict d)) s
  = (Returns tt, log_line ERROR (Error_handling_message AttributeError) s).
Proof.
  intros [Ht|Ht] H; settle_type Ht;
    destruct (dict_get d "component") as [| | | | | |c]; try reflexivity;
    now destruct (H c).
Qed.

Lemma component_that_is_no_object_is_logged_witness :
  handle_message 1 "2025-01-01T00:00:00"
    (Json (PDict [(HStr "type", PStr "ui.component.create")])) (init None)
  = (Returns tt,
     log_line ERROR (Error_handling_message AttributeError) (init None)).
Proof.
  apply (@component_that_is_no_object_is_logged 1 "2025-01-01T00:00:00"
           [(HStr "type", PStr "ui.component.create")] (init None)).
  - right. reflexivity.
  - intros c H. discriminate H.
Defined.

(** X11. A component whose id is a non-empty list or object cannot be a
    dictionary key: the store raises [TypeError], which is caught.  One
    ERROR line is logged; nothing is stored and nothing is broadcast. *)
Theorem unhashable_id_is_logged
    (ws : websocket) (now : string) (d c : pydict) (s : studio) :
  dict_get d "component" = PDict c ->
  (str_eq (dict_get d "type") "ui.studio.update" = true
   /\ truthy (dict_get c "id") = true
   /\ hash_key (dict_get c "id") = None)
  \/ (str_eq (dict_get d "type") "ui.component.create" = true
      /\ truthy (registered_id c) = true
      /\ hash_key (registered_id c) = None) ->
  handle_message ws now (Json (PDict d)) s
  = (Returns tt, log_line ERROR (Error_handling_message TypeError) s).
Proof.
  intros Hc [(Ht & Htr & Hk)|(Ht & Htr & Hk)]; settle_type Ht; rewrite Hc; mred.
  - now rewrite Htr, Hk.
  - unfold registered_id, py_or in *.
    destruct (truthy (dict_get c "id")) eqn:Ei; mred; now rewrite Htr, Hk.
Qed.

Lemma unhashable_id_is_logged_witness :
  handle_message 1 "2025-01-01T00:00:00"
    (create_message (PDict [(HStr "id", PList [PStr "c1"])])) (init None)
  = (Returns tt,
     log_line ERROR (Error_handling_message TypeError) (init None)).
Proof.
  apply (@unhashable_id_is_logged 1 "2025-01-01T00:00:00"
           [ (HStr "type", PStr "ui.component.create");
             (HStr "component", PDict [(HStr "id", PList [PStr "c1"])]) ]
           [(HStr "id", PList [PStr "c1"])] (init None)).
  - reflexivity.
  - right. repeat split.
Defined.

(* ================================================================= *)
(** ** Further properties of the hub and the dispatcher *)


Lemma only_sends_refl (data : text) (s : studio) : only_sends data s s.
Proof.
  repeat split. exists []. split; [now rewrite app_nil_r | intros c t []].
Qed.

Lemma only_sends_trans (data : text) (a b c : studio) :
  only_sends data a b -> only_sends data b c -> only_sends data a c.
Proof.
  unfold only_sends.
  intros (H1 & H2 & H3 & H4 & H5 & sent & H6 & H7)
         (G1 & G2 & G3 & G4 & G5 & sent' & G6 & G7).
  repeat split; try congruence.
  exists (sent ++ sent'). split.
  - now rewrite G6, H6, app_assoc.
  - intros cl t Hin. apply in_app_or in Hin as [Hin|Hin]; eauto.
Qed.

Lemma only_connections_only_sends (data : text) (s s' : studio) :
  only_connections s s' -> only_sends data s s'.
Proof.
  intros (H1 & H2 & H3 & H4 & H5 & H6). repeat split; try assumption.
  exists []. split; [now rewrite app_nil_r | intros c t []].
Qed.

Lemma one_send_only_sends (client : websocket) (data : text) (s : studio) :
  only_sends data s (with_delivered (delivered s ++ [(client, data)]) s).
Proof.
  repeat split. exists [(client, data)].
  split; [reflexivity|]. intros c t [[= _ <-]|[]]. reflexivity.
Qed.

(** The first loop of a broadcast always comes to its end, whatever is
    scheduled, and does nothing but send the encoded message. *)
Lemma send_to_clients_among_returns (schedule : list (list meanwhile))
    (data : text) (i : nat) (acc : list websocket) (s : studio) :
  exists acc' s',
    send_to_clients_among schedule data i acc s = (Returns acc', s')
    /\ only_sends data s s'.
Proof.
  revert i acc s.
  induction schedule as [|events schedule IH]; intros i acc s; simpl.
  - cbv beta iota delta [bind gets]. rewrite send_to_clients_eq.
    eexists. eexists. split; [reflexivity|].
    repeat split. eexists. split; [reflexivity|].
    intros c t Hin. apply in_map_iff in Hin as (c' & [= _ <-] & _).
    reflexivity.
  - cbv beta iota delta [bind gets ret].
    destruct (nth_error (websocket_clients s) i) as [client|].
    + unfold send. mred.
      destruct (mem client (closed s)); simpl.
      * destruct (IH (S i) (acc ++ [client]) (happen_all events s))
          as (acc' & s' & -> & H).
        exists acc', s'. split; [reflexivity|].
        eapply only_sends_trans; [|exact H].
        apply only_connections_only_sends, happen_all_only_connections.
      * destruct (IH (S i) acc
                    (happen_all events
                       (with_delivered (delivered s ++ [(client, data)]) s)))
          as (acc' & s' & -> & H).
        exists acc', s'. split; [reflexivity|].
        eapply only_sends_trans; [apply one_send_only_sends|].
        eapply only_sends_trans; [|exact H].
        apply only_connections_only_sends, happen_all_only_connections.
    + exists acc, s. split; [reflexivity | apply only_sends_refl].
Qed.

(** The second loop either removes every client it was given or stops
    at the first one that is no longer in the list, with [ValueError]. *)
Lemma for_each_clients_remove_cases (r : list websocket) (s : studio) :
  exists o l,
    for_each r clients_remove s = (o, with_websocket_clients l s)
    /\ (o = Returns tt \/ o = Raises ValueError).
Proof.
  revert s. induction r as [|x r IH]; intro s; simpl.
  - exists (Returns tt), (websocket_clients s).
    split; [now rewrite with_websocket_clients_id | now left].
  - unfold clients_remove at 1. mred.
    destruct (list_remove x (websocket_clients s)) as [l'|].
    + destruct (IH (with_websocket_clients l' s)) as (o & l & E & Ho).
      exists o, l. split; [|exact Ho]. rewrite E. now destruct s.
    + exists (Raises ValueError), (websocket_clients s).
      split; [now rewrite with_websocket_clients_id | now right].
Qed.

(** X12. Whatever connections are accepted, finish or go down while a
    broadcast awaits its sends, the broadcast comes to an end: it
    returns, or it raises the [ValueError] of a [remove] of its second
    loop; no [ConnectionClosed] of a [send] reaches the caller.  Every
    frame it has sent is the encoded message, and the registry is as it
    was. *)
Theorem broadcast_among_others_sends_the_message
    (schedule : list (list meanwhile)) (message : pyval) (s : studio) :
  let r := broadcast_message_among schedule message s in
  (fst r = Returns tt \/ fst r = Raises ValueError)
  /\ components (snd r) = components s
  /\ exists sent,
       delivered (snd r) = delivered s ++ sent
       /\ forall c t, In (c, t) sent -> t = json_dumps message.
Proof.
  intro r. subst r. unfold broadcast_message_among.
  cbv beta iota zeta delta [bind].
  destruct (send_to_clients_among_returns schedule (json_dumps message) 0 [] s)
    as (acc & s' & -> & Hc & _ & _ & _ & _ & Hsent).
  destruct (for_each_clients_remove_cases acc s') as (o & l & -> & Ho).
  simpl. split; [exact Ho|]. split; [exact Hc | exact Hsent].
Qed.

(** What one frame does to the deliveries: nothing, or one frame, with
    its type and the clock's reading, to each open client. *)
Lemma frame_delivers (ws : websocket) (now : string) (message : text)
    (s : studio) :
  let s' := snd (handle_message ws now message s) in
  delivered s' = delivered s
  \/ exists m ty,
       delivered s' = delivered s ++ to_open_clients (PDict m) s
       /\ dict_get m "type" = PStr ty
       /\ dict_get m "timestamp" = PStr now.
Proof.
  destruct message as [v|raw]; [destruct v|]; try (left; reflexivity).
  walk.
  all: first
    [ left; reflexivity
    | right; eexists; eexists; split; [reflexivity | split; reflexivity] ].
Qed.


(** X14. One frame touches at most one entry of the registry: there is
    a key such that every other key reads after the frame as before. *)
Theorem one_frame_one_entry
    (ws : websocket) (now : string) (message : text) (s : studio) :
  exists k, forall k', k' <> k ->
    dict_lookup k' (components (snd (handle_message ws now message s)))
    = dict_lookup k' (components s).
Proof.
  destruct message as [v|raw]; [destruct v|];
    try (exists HNone; reflexivity).
  walk; rewrite ?components_broadcast_effect; simpl.
  all: try (exists HNone; reflexivity).
  all: match goal with
       | |- context [dict_store ?h _ _] =>
           exists h; intros k' Hne; now apply lookup_store_other
       | |- context [dict_remove ?h _] =>
           exists h; intros k' Hne; apply dict_lookup_remove_ne; congruence
       end.
Qed.

(* ================================================================= *)
(** ** What holds whatever happens *)

Lemma close_all_with_closed (clients : list websocket) (s : studio) :
  exists cl, close_all clients s = with_closed cl s.
Proof.
  unfold close_all. revert s.
  induction clients as [|c clients IH]; intro s; simpl.
  - exists (closed s). now destruct s.
  - destruct (IH (connection_lost c s)) as [cl ->].
    exists cl. unfold connection_lost. now destruct (mem c (closed s)).
Qed.

Lemma stop_cases (s : studio) :
  stop s = (Returns tt, s)
  \/ exists cl,
       stop s
       = (Returns tt,
          log_line INFO Dynamic_Studio_stopped
            (with_websocket_clients [] (with_closed cl (with_is_running false s)))).
Proof.
  destruct (is_running s) eqn:H.
  - right. rewrite (stop_running s H).
    destruct (close_all_with_closed (websocket_clients s) (with_is_running false s))
      as [cl ->].
    now exists cl.
  - left. unfold stop. mred. now rewrite H.
Qed.

Lemma stamped_to_open_clients (m : pydict) (ty now : string) (s : studio) :
  dict_get m "type" = PStr ty ->
  dict_get m "timestamp" = PStr now ->
  Forall (fun e => stamped (snd e)) (to_open_clients (PDict m) s).
Proof.
  intros Hty Hts. apply Forall_forall. intros [c t] Hin.
  unfold to_open_clients in Hin. apply in_map_iff in Hin as (c' & [= _ <-] & _).
  now exists m, ty, now.
Qed.

(** What every action keeps. *)
Lemma perform_keeps (a : action) (s : studio) :
  config (perform a s) = config s
  /\ event_stream (perform a s) = event_stream s
  /\ (serving s = true -> serving (perform a s) = true)
  /\ (is_frame a = false -> components (perform a s) = components s)
  /\ exists sent,
       delivered (perform a s) = delivered s ++ sent
       /\ Forall (fun e => stamped (snd e)) sent.
Proof.
  destruct a as [ws now message|ws|ws|ws|bind_error| |now cid|now cid value];
    simpl.
  - destruct (handle_message_same_surroundings ws now message s)
      as (_ & Hc & He & _ & Hs & _).
    repeat split; try assumption; try congruence.
    destruct (frame_delivers ws now message s) as [H|(m & ty & H & Hty & Hts)].
    + exists []. now rewrite app_nil_r.
    + exists (to_open_clients (PDict m) s). split; [exact H|].
      now apply stamped_to_open_clients with ty now.
  - repeat split; auto. exists []. now rewrite app_nil_r.
  - unfold handle_websocket_finally, clients_remove. mred.
    destruct (list_remove ws (websocket_clients s)); simpl;
      repeat split; auto; exists []; now rewrite app_nil_r.
  - unfold connection_lost.
    destruct (mem ws (closed s)); simpl;
      repeat split; auto; exists []; now rewrite app_nil_r.
  - unfold start, py_getitem, websockets_serve. mred.
    destruct (is_running s); simpl.
    + repeat split; auto. exists []. now rewrite app_nil_r.
    + repeat (split_test; mred; simpl).
      all: repeat split; auto; exists []; now rewrite app_nil_r.
  - destruct (stop_cases s) as [-> | [cl ->]]; simpl;
      repeat split; auto; exists []; now rewrite app_nil_r.
  - unfold handle_button_click. rewrite broadcast_message_eq. simpl.
    repeat split; auto.
    eexists. split; [reflexivity|].
    apply stamped_to_open_clients with "ui.event" now; reflexivity.
  - unfold handle_input_change. rewrite broadcast_message_eq. simpl.
    repeat split; auto.
    eexists. split; [reflexivity|].
    apply stamped_to_open_clients with "ui.event" now; reflexivity.
Qed.

(** X15. The event stream is never written and the configuration never
    changes: whatever frames, connections, lifecycle calls and
    interaction events follow the construction, [event_stream] is still
    empty and [config] is what [__init__] made it. *)
Theorem event_stream_stays_empty
    (cfg : option pydict) (actions : list action) :
  event_stream (run actions (init cfg)) = []
  /\ config (run actions (init cfg)) = config (init cfg).
Proof.
  assert (G : forall s, event_stream (run actions s) = event_stream s
                        /\ config (run actions s) = config s).
  { unfold run. induction actions as [|a actions IH]; intro s; simpl.
    - split; reflexivity.
    - destruct (IH (perform a s)) as [-> ->].
      destruct (perform_keeps a s) as (Hc & He & _). now rewrite Hc, He. }
  apply G.
Qed.

(** X16. Nothing ever unbinds the listening socket: once a [start] has
    bound it, it stays bound through every later action, [stop]
    included. *)
Theorem nothing_unbinds_the_socket (actions : list action) (s : studio) :
  serving s = true -> serving (run actions s) = true.
Proof.
  unfold run. revert s.
  induction actions as [|a actions IH]; intros s H; simpl; [exact H|].
  apply IH. now apply perform_keeps.
Qed.

Lemma nothing_unbinds_the_socket_witness :
  serving (run [Stop; Lost 1; Stop] (snd (start None (init None)))) = true.
Proof.
  apply (nothing_unbinds_the_socket [Stop; Lost 1; Stop]
           (snd (start None (init None)))).
  reflexivity.
Defined.

(** X17. Only inbound frames change the registry: connections coming
    and going, transports failing, [start], [stop] and the interaction
    events of the renderer leave every component as it is. *)
Theorem only_frames_change_the_registry (actions : list action) (s : studio) :
  forallb (fun a => negb (is_frame a)) actions = true ->
  components (run actions s) = components s.
Proof.
  unfold run. revert s.
  induction actions as [|a actions IH]; intros s H; simpl in *; [reflexivity|].
  apply andb_true_iff in H as [Ha Hl]. apply negb_true_iff in Ha.
  rewrite (IH _ Hl). now apply perform_keeps.
Qed.

Lemma only_frames_change_the_registry_witness :
  let s := handle_sequence
             [(1, "2025-01-01T00:00:00", create_message a_button)] (init None) in
  components
    (run [ Connect 1; Start None; Click "2025-01-01T00:00:02" (PStr "c1");
           Lost 1; Stop; Disconnect 1 ] s)
  = components s.
Proof.
  intro s.
  apply (only_frames_change_the_registry
           [ Connect 1; Start None; Click "2025-01-01T00:00:02" (PStr "c1");
             Lost 1; Stop; Disconnect 1 ] s).
  reflexivity.
Defined.

(** X18. Every frame the studio ever sends is a JSON object with a
    string [type] and a string [timestamp], whatever was received before
    it. *)
Theorem every_sent_frame_is_stamped
    (cfg : option pydict) (actions : list action) :
  Forall (fun e => stamped (snd e)) (delivered (run actions (init cfg))).
Proof.
  assert (G : forall s, Forall (fun e => stamped (snd e)) (delivered s) ->
            Forall (fun e => stamped (snd e)) (delivered (run actions s))).
  { unfold run. induction actions as [|a actions IH]; intros s H; simpl.
    - exact H.
    - apply IH. destruct (perform_keeps a s) as (_ & _ & _ & _ & sent & -> & Hs).
      apply Forall_app. now split. }
  apply G. constructor.
Qed.

(* ================================================================= *)
(** ** Further properties of the lifecycle *)

Lemma config_lookup (cfg : option pydict) (key : hkey) :
  dict_lookup key (config (init cfg))
  = match last_stored key (match cfg with Some c => c | None => [] end) with
    | Some w => Some w
    | None => dict_lookup key STUDIO_CONFIG
    end.
Proof. apply dict_lookup_merge_last. Qed.

(** X19. The options given to the constructor override the defaults key
    by key and the other defaults stay: a key of the given config reads
    as the config has it, any other key as in [STUDIO_CONFIG]; no config,
    or an empty one, gives the defaults. *)
Theorem config_overrides_defaults (c : pydict) (key : hkey) :
  (dict_mem key c = true ->
   dict_lookup key (config (init (Some c))) = dict_lookup key (dict_merge [] c))
  /\ (dict_lookup key c = None ->
      dict_lookup key (config (init (Some c))) = dict_lookup key STUDIO_CONFIG)
  /\ config (init None) = STUDIO_CONFIG
  /\ init (Some []) = init None.
Proof.
  split; [|split; [|split; reflexivity]].
  - intro H. rewrite config_lookup, (dict_lookup_merge_last key c []).
    destruct (last_stored_some key c H) as [w ->]. reflexivity.
  - intro H. rewrite config_lookup. now rewrite (last_stored_none key c H).
Qed.

Lemma start_eq (s : studio) (bind_error : option exn) (host port wsport : pyval) :
  is_running s = false ->
  dict_lookup (HStr "host") (config s) = Some host ->
  dict_lookup (HStr "port") (config s) = Some port ->
  dict_lookup (HStr "websocket_port") (config s) = Some wsport ->
  start bind_error s
  = match bind_error with
    | None =>
        (Returns tt,
         log_line INFO Dynamic_Studio_started
           (with_serving true
              (log_line INFO (Starting_Dynamic_Studio_on host port)
                 (with_is_running true s))))
    | Some e =>
        (Raises e,
         log_line INFO (Starting_Dynamic_Studio_on host port)
           (with_is_running true s))
    end.
Proof.
  intros Hr Hh Hp Hw. unfold start, py_getitem, websockets_serve. mred.
  rewrite Hr. simpl. rewrite Hh, Hp, Hw. now destruct bind_error.
Qed.

(** X20. Whatever options the studio was constructed with, [start]
    finds the host and the ports it needs: it raises only what the bind
    raises, and returns when the bind succeeds.  It logs the configured
    host and port, leaves [is_running] set either way, and a further
    [start] only warns, without binding. *)
Theorem start_after_construction
    (cfg : option pydict) (bind_error : option exn) :
  let s0 := init cfg in
  let s1 := snd (start bind_error s0) in
  fst (start bind_error s0)
  = match bind_error with None => Returns tt | Some e => Raises e end
  /\ is_running s1 = true
  /\ serving s1 = match bind_error with None => true | Some _ => false end
  /\ (exists host port,
        dict_lookup (HStr "host") (config s0) = Some host
        /\ dict_lookup (HStr "port") (config s0) = Some port
        /\ logged s1
           = (INFO, Starting_Dynamic_Studio_on host port)
             :: match bind_error with
                | None => [(INFO, Dynamic_Studio_started)]
                | Some _ => []
                end)
  /\ (forall bind_error',
        start bind_error' s1
        = (Returns tt, log_line WARNING Studio_is_already_running s1)).
Proof.
  intros s0 s1. subst s0 s1.
  assert (H : forall key, dict_mem key STUDIO_CONFIG = true ->
            exists v, dict_lookup key (config (init cfg)) = Some v).
  { intros key Hm. rewrite config_lookup.
    destruct (last_stored key _) as [w|]; [now exists w|].
    unfold dict_mem in Hm.
    destruct (dict_lookup key STUDIO_CONFIG) as [v|]; [now exists v|discriminate]. }
  destruct (H (HStr "host") eq_refl) as [host Hh].
  destruct (H (HStr "port") eq_refl) as [port Hp].
  destruct (H (HStr "websocket_port") eq_refl) as [wsport Hw].
  pose proof (start_eq (init cfg) bind_error eq_refl Hh Hp Hw) as E.
  rewrite E.
  split; [now destruct bind_error|].
  split; [now destruct bind_error|].
  split; [now destruct bind_error|].
  split.
  - exists host, port. repeat split; try assumption. now destruct bind_error.
  - intro b. unfold start. mred. now destruct bind_error.
Qed.

Lemma mem_app (c : websocket) (l1 l2 : list websocket) :
  mem c (l1 ++ l2) = mem c l1 || mem c l2.
Proof. apply existsb_app. Qed.

Lemma mem_In (c : websocket) (l : list websocket) :
  mem c l = true <-> In c l.
Proof.
  unfold mem. rewrite existsb_exists. split.
  - intros (x & Hin & E). apply Nat.eqb_eq in E. now subst.
  - intro H. exists c. split; [exact H | apply Nat.eqb_refl].
Qed.

Lemma closed_close_all (c : websocket) (clients : list websocket) (s : studio) :
  mem c (closed (close_all clients s)) = mem c (closed s) || mem c clients.
Proof.
  unfold close_all. revert s.
  induction clients as [|w clients IH]; intro s; simpl.
  - now rewrite orb_false_r.
  - rewrite IH. unfold connection_lost.
    destruct (mem w (closed s)) eqn:E; simpl.
    + destruct (Nat.eqb c w) eqn:Ec; [|reflexivity].
      apply Nat.eqb_eq in Ec. subst. now rewrite E.
    + rewrite mem_app. simpl. rewrite orb_false_r. now rewrite orb_assoc.
Qed.

Lemma closed_connection_lost (c a : websocket) (s : studio) :
  mem c (closed (connection_lost a s)) = mem c (closed s) || Nat.eqb c a.
Proof.
  unfold connection_lost. destruct (mem a (closed s)) eqn:E; simpl.
  - destruct (Nat.eqb c a) eqn:Ec; [|now rewrite orb_false_r].
    apply Nat.eqb_eq in Ec. subst. now rewrite E.
  - rewrite mem_app. simpl. now rewrite orb_false_r.
Qed.

Lemma websocket_clients_connection_lost (a : websocket) (s : studio) :
  websocket_clients (connection_lost a s) = websocket_clients s.
Proof. unfold connection_lost. now destruct (mem a (closed s)). Qed.

Lemma two_by_two {A} (P : list A -> Prop) :
  P [] -> (forall a, P [a]) -> (forall a b l, P l -> P (a :: b :: l)) ->
  forall l, P l.
Proof.
  intros H0 H1 H2 l.
  assert (H : P l /\ forall a, P (a :: l)).
  { induction l as [|b l [IH IH']].
    - split; [exact H0 | exact H1].
    - split; [apply IH' | intro a; apply H2, IH]. }
  apply H.
Qed.

Lemma skipn_past {A} (l : list A) : skipn (S (List.length l)) l = [].
Proof. apply skipn_all2. apply Nat.le_succ_diag_r. Qed.

Lemma nth_error_middle {A} (pre : list A) (a : A) (l : list A) :
  nth_error (pre ++ a :: l) (List.length pre) = Some a.
Proof. induction pre as [|x pre IH]; [reflexivity | exact IH]. Qed.

(** The handler of the client at position [i] finishes while [stop]
    awaits its close: the client is closed, leaves the list, and the
    iterator steps over its neighbour. *)
Lemma close_then_finished (a : websocket) (pre l : list websocket)
    (schedule : list (list meanwhile)) (s : studio) :
  websocket_clients s = pre ++ a :: l ->
  ~ In a pre ->
  close_clients_among ([Finished a] :: schedule) (List.length pre) s
  = close_clients_among schedule (S (List.length pre))
      (with_websocket_clients (pre ++ l) (connection_lost a s)).
Proof.
  intros Hl Hn. simpl. cbv beta iota delta [bind gets ret].
  rewrite Hl, nth_error_middle.
  unfold close at 1. cbv beta iota delta [modify].
  fold (connection_lost a s).
  unfold happen_all. simpl.
  unfold handle_websocket_finally, clients_remove.
  cbv beta iota delta [bind gets modify].
  rewrite websocket_clients_connection_lost, Hl.
  now rewrite (@list_remove_middle a pre l Hn).
Qed.

Lemma close_clients_every_other (rest : list websocket) :
  forall (pre : list websocket) (s : studio),
    websocket_clients s = pre ++ rest ->
    NoDup (pre ++ rest) ->
    exists s',
      close_clients_among (each_finishes_at_its_close rest)
        (List.length pre) s = (Returns tt, s')
      /\ forall c, mem c (closed s')
                   = mem c (closed s) || mem c (every_other rest).
Proof.
  induction rest as [|a|a b l IH] using two_by_two; intros pre s Hl Hd.
  - exists s. split; [|intro c; simpl; now rewrite orb_false_r].
    simpl. cbv beta iota delta [bind gets].
    rewrite Hl, app_nil_r, skipn_all. reflexivity.
  - exists (with_websocket_clients (pre ++ []) (connection_lost a s)).
    assert (Hn : ~ In a pre).
    { apply NoDup_remove_2 in Hd. now rewrite app_nil_r in Hd. }
    unfold each_finishes_at_its_close. simpl map.
    rewrite (@close_then_finished a pre [] [] s Hl Hn).
    split.
    + simpl. cbv beta iota delta [bind gets]. simpl websocket_clients.
      rewrite app_nil_r.
      change (for_each (skipn (S (List.length pre)) pre) close
                (with_websocket_clients pre (connection_lost a s))
              = (Returns tt, with_websocket_clients pre (connection_lost a s))).
      rewrite skipn_past. reflexivity.
    + intro c. simpl. rewrite closed_connection_lost.
      now rewrite orb_false_r.
  - assert (Hn : ~ In a pre).
    { apply NoDup_remove_2 in Hd. intro Hin. apply Hd, in_or_app. now left. }
    unfold each_finishes_at_its_close. simpl map.
    fold (each_finishes_at_its_close l).
    rewrite (@close_then_finished a pre (b :: l) _ s Hl Hn).
    destruct (IH (pre ++ [b])
                 (with_websocket_clients (pre ++ b :: l) (connection_lost a s)))
      as (s' & E & Hc).
    + simpl. now rewrite <- app_assoc.
    + apply NoDup_remove_1 in Hd. now rewrite <- app_assoc.
    + rewrite length_app, Nat.add_1_r in E.
      exists s'. split; [exact E|].
      intro c. rewrite Hc. simpl. rewrite closed_connection_lost.
      now rewrite orb_assoc.
Qed.

(** X21. [stop] walks the live list.  When the handler of each
    connection finishes while [stop] awaits the close of that
    connection, a running studio with distinct clients closes the first,
    the third, the fifth ... client of its list and no other: the
    clients in between are stepped over and stay as they were, though
    [stop] returns with the list empty.  No frame is sent on the way. *)
Theorem stop_steps_over_every_other_client (s : studio) :
  is_running s = true ->
  NoDup (websocket_clients s) ->
  let r := stop_among (each_finishes_at_its_close (websocket_clients s)) s in
  fst r = Returns tt
  /\ websocket_clients (snd r) = []
  /\ (forall c, mem c (closed (snd r)) = true
                <-> mem c (closed s) = true
                    \/ In c (every_other (websocket_clients s)))
  /\ delivered (snd r) = delivered s.
Proof.
  intros H Hd r. subst r.
  destruct (stop_among_running
              (each_finishes_at_its_close (websocket_clients s)) s H)
    as (s2 & -> & (_ & _ & Hdel & _) & E).
  destruct (@close_clients_every_other (websocket_clients s) []
              (with_is_running false s) eq_refl Hd) as (s' & E' & Hc).
  simpl List.length in E'. rewrite E in E'. injection E' as <-.
  simpl. split; [reflexivity|]. split; [reflexivity|]. split; [|exact Hdel].
  intro c. rewrite Hc. simpl.
  rewrite orb_true_iff, (mem_In c (every_other (websocket_clients s))).
  reflexivity.
Qed.

Lemma stop_steps_over_every_other_client_witness :
  let s := run [Connect 1; Connect 2; Connect 3] (snd (start None (init None))) in
  let r := stop_among (each_finishes_at_its_close (websocket_clients s)) s in
  websocket_clients s = [1; 2; 3]
  /\ closed (snd r) = [1; 3]
  /\ (forall c, mem c (closed (snd r)) = true
                <-> mem c (closed s) = true
                    \/ In c (every_other (websocket_clients s))).
Proof.
  intros s r. split; [reflexivity|]. split; [reflexivity|].
  apply (stop_steps_over_every_other_client s).
  - reflexivity.
  - repeat constructor; simpl; intuition discriminate.
Defined.

(* ================================================================= *)
(** ** Further properties of a connection's handler *)





(* ================================================================= *)
(** ** An update that fails half-way *)

(** X24. When [dict.update] raises on the props of a
    [ui.component.update] (a sequence with a bad element, say), what it
    had stored before raising stays in the component, the exception is
    caught and logged as an error, and nothing is broadcast: the clients
    are not told of the change. *)
Theorem failed_update_is_kept_but_not_broadcast
    (ws : websocket) (now : string) (d c c' : pydict) (k : hkey) (e : exn)
    (s : studio) :
  updates d k ->
  dict_lookup k (components s) = Some (PDict c) ->
  dict_update c (dict_get d "props") = (c', Some e) ->
  handle_message ws now (Json (PDict d)) s
  = (Returns tt,
     log_line ERROR (Error_handling_message e)
       (with_components (dict_store k (PDict c') (components s)) s)).
Proof.
  intros (Ht & Hk) Hl Hu. pose proof (dict_update_error _ _ Hu) as He.
  settle_type Ht. rewrite Hk. mred.
  unfold dict_mem. rewrite Hl. mred. rewrite Hl, Hu. mred.
  now rewrite He.
Qed.

Lemma failed_update_is_kept_but_not_broadcast_witness :
  let s := run [ Connect 1;
                 Frame 1 "2025-01-01T00:00:00" (create_message a_button) ]
             (init None) in
  let d := [ (HStr "type", PStr "ui.component.update");
             (HStr "componentId", PStr "c1");
             (HStr "props", PList [PList [PStr "label"; PStr "Stop"];
                                   PStr "xyz"]) ] in
  let s' := snd (handle_message 1 "2025-01-01T00:00:01" (Json (PDict d)) s) in
  dict_lookup (HStr "c1") (components s')
  = Some (PDict [ (HStr "id", PStr "c1");
                  (HStr "kind", PStr "button");
                  (HStr "props", PDict [(HStr "label", PStr "Go")]);
                  (HStr "label", PStr "Stop") ])
  /\ delivered s' = delivered s.
Proof.
  intros s d s'. subst s'.
  rewrite (@failed_update_is_kept_but_not_broadcast 1 "2025-01-01T00:00:01" d
             [ (HStr "id", PStr "c1");
               (HStr "kind", PStr "button");
               (HStr "props", PDict [(HStr "label", PStr "Go")]) ]
             [ (HStr "id", PStr "c1");
               (HStr "kind", PStr "button");
               (HStr "props", PDict [(HStr "label", PStr "Go")]);
               (HStr "label", PStr "Stop") ]
             (HStr "c1") ValueError s).
  - split; reflexivity.
  - split; reflexivity.
  - reflexivity.
  - reflexivity.
Defined.
